(** * HappyRobot Freight API: carrier verification and load search

    A shallow embedding of [main.py]: the authentication gate
    ([verify_api_key]), the catalog loader ([load_loads_from_file]), the
    load search ([search_loads]) and the carrier verification client
    ([verify_carrier]), with the properties the specification states
    about them.

    Modelling decisions.
    - A Python [str] is a [string]; the character with code [n] stands
      for the code point [n], so the strings of the model are the Python
      strings over code points 0..255.  [lower], [strip] and [isdigit]
      follow CPython on that range.
    - JSON values ([json.load], [response.json()]) are the inductive
      [pyval]; a [dict] is a [gmap string pyval].
    - A handler is a computation in the monad [M]: it emits a trace of
      events ([print], file access, the outbound HTTP request) and either
      returns a value or raises an exception.
    - What the handlers read from the outside (the loads file, the answer
      of the registry) is an explicit argument. *)

From Stdlib Require Import ZArith NArith Ascii String DecimalString.
From Stdlib Require Import Floats.SpecFloat.
From stdpp Require Import base option list strings gmap.

#[local] Set Warnings "-register-all".
#[local] Open Scope string_scope.

(** ** Python strings *)

Module PyStr.

Definition code (c : ascii) : N := N_of_ascii c.

Definition between (lo hi n : N) : bool := (N.leb lo n) && (N.leb n hi).

(** [_PyUnicode_IsWhitespace] on code points below 256. *)
Definition isspace_char (c : ascii) : bool :=
  let n := code c in
  between 9 13 n || between 28 32 n || N.eqb n 133 || N.eqb n 160.

(** ['0'..'9']: the decimal digits. *)
Definition isdecimal_char (c : ascii) : bool := between 48 57 (code c).

(** [str.isdigit] on one character: the decimal digits and, below 256,
    the superscripts U+00B2, U+00B3 and U+00B9. *)
Definition isdigit_char (c : ascii) : bool :=
  let n := code c in
  between 48 57 n || N.eqb n 178 || N.eqb n 179 || N.eqb n 185.

(** The lower-case mapping below 256: [A-Z] and U+00C0..U+00DE except
    the multiplication sign U+00D7. *)
Definition lower_char (c : ascii) : ascii :=
  let n := code c in
  if between 65 90 n || (between 192 222 n && negb (N.eqb n 215))
  then ascii_of_N (n + 32) else c.

(** [s.lower()] *)
Fixpoint lower (s : string) : string :=
  match s with
  | EmptyString => EmptyString
  | String c s' => String (lower_char c) (lower s')
  end.

(** [s.lstrip()] *)
Fixpoint lstrip (s : string) : string :=
  match s with
  | EmptyString => EmptyString
  | String c s' => if isspace_char c then lstrip s' else s
  end.

(** [s.rstrip()] *)
Fixpoint rstrip (s : string) : string :=
  match s with
  | EmptyString => EmptyString
  | String c s' =>
      match rstrip s' with
      | EmptyString => if isspace_char c then EmptyString else String c EmptyString
      | r => String c r
      end
  end.

(** [s.strip()] *)
Definition strip (s : string) : string := rstrip (lstrip s).

Fixpoint all_chars (p : ascii -> bool) (s : string) : bool :=
  match s with
  | EmptyString => true
  | String c s' => p c && all_chars p s'
  end.

(** [s.isdigit()]: at least one character, and all of them digits. *)
Definition isdigit (s : string) : bool :=
  match s with
  | EmptyString => false
  | _ => all_chars isdigit_char s
  end.

(** [s.startswith(p)] *)
Fixpoint startswith (p s : string) : bool :=
  match p, s with
  | EmptyString, _ => true
  | String a p', String b s' => if Ascii.eqb a b then startswith p' s' else false
  | String _ _, EmptyString => false
  end.

(** [sub in s] *)
Fixpoint contains (sub s : string) : bool :=
  startswith sub s ||
  match s with
  | EmptyString => false
  | String _ s' => contains sub s'
  end.

(** The first occurrence of [sep] cuts [s] in two. *)
Fixpoint cut (sep : ascii) (s : string) : option (string * string) :=
  match s with
  | EmptyString => None
  | String c s' =>
      if Ascii.eqb c sep then Some (EmptyString, s')
      else match cut sep s' with
           | Some (a, b) => Some (String c a, b)
           | None => None
           end
  end.

(** [s.split(sep, 1)] for a one-character separator. *)
Definition split1 (sep : ascii) (s : string) : list string :=
  match cut sep s with
  | Some (a, b) => [a; b]
  | None => [s]
  end.

(** [s[:n]] for [n >= 0]. *)
Definition slice_to (n : nat) (s : string) : string := String.substring 0 n s.

(** [str(n)] for an [int]. *)
Definition of_Z (z : Z) : string := NilEmpty.string_of_int (Z.to_int z).
Definition of_nat (n : nat) : string := of_Z (Z.of_nat n).

(** [bool(s)] *)
Definition truthy (s : string) : bool :=
  match s with EmptyString => false | _ => true end.

End PyStr.

(** ** Python values, exceptions and the handler monad *)

(** What [json.load] and [response.json()] produce. *)
Inductive pyval :=
| PNone
| PBool (b : bool)
| PInt (z : Z)
| PFloat (f : spec_float)
| PStr (s : string)
| PList (l : list pyval)
| PDict (d : gmap string pyval).

Inductive exn_class :=
| AttributeError
| TypeError
| ValidationError      (* pydantic *)
| RequestValidationError   (* fastapi *)
| TimeoutException     (* httpx.TimeoutException *)
| RequestError         (* an httpx.RequestError that is not a timeout *)
| OtherException.      (* any other subclass of Exception *)

Inductive exn :=
| HTTPException (status_code : Z) (detail : string)
| PyExc (cls : exn_class) (msg : string).

Inductive outcome (A : Type) :=
| Return (a : A)
| Raise (e : exn).
Arguments Return {A} a.
Arguments Raise {A} e.

Inductive event :=
| Print (line : string)
| PathExists (path : string)
| OpenRead (path : string)
| HttpGet (url : string) (params : list (string * string))
| PrintTraceback.

(** A handler run: the events it emitted, and how it ended. *)
Definition M (A : Type) : Type := list event * outcome A.

Definition ret {A} (a : A) : M A := ([], Return a).
Definition raise {A} (e : exn) : M A := ([], Raise e).
Definition emit (ev : event) : M unit := ([ev], Return tt).
Definition print (line : string) : M unit := emit (Print line).
Definition lift {A} (o : outcome A) : M A := ([], o).

Definition bind {A B} (m : M A) (k : A -> M B) : M B :=
  match m with
  | (t, Return a) => let (t', o) := k a in ((t ++ t')%list, o)
  | (t, Raise e) => (t, Raise e)
  end.

(** [try: m  except Exception as e: h e] *)
Definition try_except {A} (m : M A) (h : exn -> M A) : M A :=
  match m with
  | (t, Return a) => (t, Return a)
  | (t, Raise e) => let (t', o) := h e in ((t ++ t')%list, o)
  end.

Definition obind {A B} (o : outcome A) (k : A -> outcome B) : outcome B :=
  match o with
  | Return a => k a
  | Raise e => Raise e
  end.

Declare Scope py_scope.
Delimit Scope py_scope with py.
Notation "x <- m ;; k" := (bind m (fun x => k))
  (at level 20, m at level 99, k at level 200, only parsing) : py_scope.
Notation "m ;; k" := (bind m (fun _ => k))
  (at level 100, k at level 200, right associativity, only parsing) : py_scope.
Notation "x <~ o ;; k" := (obind o (fun x => k))
  (at level 20, o at level 99, k at level 200, only parsing) : py_scope.
#[local] Open Scope py_scope.

Definition trace {A} (m : M A) : list event := fst m.
Definition result {A} (m : M A) : outcome A := snd m.

Module Py.

(** [type(v).__name__] *)
Definition type_name (v : pyval) : string :=
  match v with
  | PNone => "NoneType"
  | PBool _ => "bool"
  | PInt _ => "int"
  | PFloat _ => "float"
  | PStr _ => "str"
  | PList _ => "list"
  | PDict _ => "dict"
  end.

Definition no_attribute {A} (v : pyval) (attr : string) : outcome A :=
  Raise (PyExc AttributeError
           ("'" ++ type_name v ++ "' object has no attribute '" ++ attr ++ "'")).

(** [bool(v)] *)
Definition truthy (v : pyval) : bool :=
  match v with
  | PNone => false
  | PBool b => b
  | PInt z => negb (Z.eqb z 0)
  | PFloat f => match f with S754_zero _ => false | _ => true end
  | PStr s => PyStr.truthy s
  | PList l => match l with [] => false | _ => true end
  | PDict d => negb (Nat.eqb (size d) 0)
  end.

(** [v is None] *)
Definition is_none (v : pyval) : bool :=
  match v with PNone => true | _ => false end.

(** [v == s] for a string literal [s] *)
Definition eq_str (v : pyval) (s : string) : bool :=
  match v with PStr s' => String.eqb s' s | _ => false end.

(** [len(v)] *)
Definition len (v : pyval) : outcome nat :=
  match v with
  | PStr s => Return (String.length s)
  | PList l => Return (length l)
  | PDict d => Return (size d)
  | _ => Raise (PyExc TypeError
                  ("object of type '" ++ type_name v ++ "' has no len()"))
  end.

(** [v.copy()] *)
Definition copy (v : pyval) : outcome pyval :=
  match v with
  | PList l => Return (PList l)
  | PDict d => Return (PDict d)
  | _ => no_attribute v "copy"
  end.

(** The items [for x in v] visits. *)
Definition iter (v : pyval) : outcome (list pyval) :=
  match v with
  | PList l => Return l
  | PDict d => Return (PStr <$> (map_to_list d).*1)
  | PStr s => Return ((fun c => PStr (String c EmptyString)) <$> list_ascii_of_string s)
  | _ => Raise (PyExc TypeError ("'" ++ type_name v ++ "' object is not iterable"))
  end.

(** [l[:n]] on a list *)
Definition list_slice_to {A} (n : Z) (l : list A) : list A :=
  if Z.leb 0 n then take (Z.to_nat n) l
  else take (length l - Z.to_nat (- n)) l.

(** [v[:n]]; on a dict the slice is refused (a [TypeError] up to Python
    3.11, a [KeyError] from 3.12 on: the older one is modelled). *)
Definition slice_to (v : pyval) (n : Z) : outcome pyval :=
  match v with
  | PList l => Return (PList (list_slice_to n l))
  | PStr s => Return (PStr (string_of_list_ascii
                              (list_slice_to n (list_ascii_of_string s))))
  | PDict _ => Raise (PyExc TypeError "unhashable type: 'slice'")
  | _ => Raise (PyExc TypeError
                  ("'" ++ type_name v ++ "' object is not subscriptable"))
  end.

(** [v.get(key, dflt)] *)
Definition get (v : pyval) (key : string) (dflt : pyval) : outcome pyval :=
  match v with
  | PDict d => Return (default dflt (d !! key))
  | _ => no_attribute v "get"
  end.

(** [v.lower()] *)
Definition lower (v : pyval) : outcome string :=
  match v with
  | PStr s => Return (PyStr.lower s)
  | _ => no_attribute v "lower"
  end.

(** [[x for x in l if cond(x)]]: the first exception of [cond] ends it. *)
Fixpoint list_comp (cond : pyval -> outcome bool) (l : list pyval)
  : outcome (list pyval) :=
  match l with
  | [] => Return []
  | x :: l' =>
      b <~ cond x ;;
      r <~ list_comp cond l' ;;
      Return (if b then x :: r else r)
  end.

(** [str(e)]; starlette prints an [HTTPException] as ["status: detail"]. *)
Definition str_exn (e : exn) : string :=
  match e with
  | HTTPException c d => PyStr.of_Z c ++ ": " ++ d
  | PyExc _ msg => msg
  end.

(** [f"{o}"] for an [Optional[str]] *)
Definition fmt_opt (o : option string) : string :=
  match o with Some s => s | None => "None" end.

(** [bool(o)] for an [Optional[str]] *)
Definition truthy_opt (o : option string) : bool :=
  match o with Some s => PyStr.truthy s | None => false end.

End Py.

(** ** Configuration and the outside world *)

Record config := {
  API_KEY : string;          (* os.getenv("HAPPYROBOT_API_KEY", "") *)
  FMCSA_API_KEY : string     (* os.getenv("FMCSA_API_KEY", "") *)
}.

Definition LOADS_FILE : string := "loads.json".
Definition FMCSA_API_BASE : string := "https://mobile.fmcsa.dot.gov/qc/services".

(** [os.getenv(name, dflt)] over an environment *)
Definition getenv (env : string -> option string) (name dflt : string) : string :=
  default dflt (env name).

(** The module-level assignments: what start-up does with the environment. *)
Definition startup (env : string -> option string) : config :=
  {| API_KEY := getenv env "HAPPYROBOT_API_KEY" "";
     FMCSA_API_KEY := getenv env "FMCSA_API_KEY" "" |}.

(** What [open(LOADS_FILE)] and [json.load] do once the file exists. *)
Inductive read_outcome :=
| ReadFails (e : exn)        (* unreadable, or not JSON *)
| ReadParsed (v : pyval).

Inductive loads_source :=
| SourceAbsent               (* os.path.exists(LOADS_FILE) is False *)
| SourcePresent (r : read_outcome).

(** An [httpx] response: [response.json()] may raise. *)
Record response := {
  status_code : Z;
  text : string;
  json : outcome pyval
}.

Inductive get_outcome :=
| GetRaises (e : exn)
| GetResponse (r : response).

(** The registry: what [client.get(url, params=params)] does. *)
Definition registry : Type := string -> list (string * string) -> get_outcome.

(** ** Models *)

Record CarrierVerificationResponse := {
  mc_number : string;
  is_eligible : bool;
  company_name : option string;
  safety_rating : option string;
  operating_status : option string;
  message : string
}.

(** pydantic on an [Optional[str]] field: [None] or a [str], nothing is
    coerced. *)
Definition optional_str (v : pyval) : option (option string) :=
  match v with
  | PNone => Some None
  | PStr s => Some (Some s)
  | _ => None
  end.

(** [CarrierVerificationResponse(...)] with the two fields that come
    straight from the registry's JSON.  Of pydantic's report only the
    first line is kept. *)
Definition CarrierVerificationResponse_new
    (mc : string) (eligible : bool) (name rating : pyval)
    (status : option string) (msg : string)
  : outcome CarrierVerificationResponse :=
  match optional_str name, optional_str rating with
  | Some n, Some r =>
      Return {| mc_number := mc; is_eligible := eligible; company_name := n;
                safety_rating := r; operating_status := status; message := msg |}
  | None, None =>
      Raise (PyExc ValidationError
               "2 validation errors for CarrierVerificationResponse")
  | _, _ =>
      Raise (PyExc ValidationError
               "1 validation error for CarrierVerificationResponse")
  end.

(** A verdict with the optional fields left at their default [None]. *)
Definition not_eligible (mc msg : string) : CarrierVerificationResponse :=
  {| mc_number := mc; is_eligible := false; company_name := None;
     safety_rating := None; operating_status := None; message := msg |}.

(** ** Data *)

Definition read_json (r : read_outcome) : M pyval :=
  emit (OpenRead LOADS_FILE) ;;
  match r with
  | ReadFails e => raise e
  | ReadParsed v => ret v
  end.

Definition load_loads_from_file (src : loads_source) : M pyval :=
  emit (PathExists LOADS_FILE) ;;
  match src with
  | SourceAbsent =>
      print ("Warning: " ++ LOADS_FILE ++ " not found. Using empty list.") ;;
      ret (PList [])
  | SourcePresent r =>
      try_except
        (loads <- read_json r ;;
         n <- lift (Py.len loads) ;;
         print ("Loaded " ++ PyStr.of_nat n ++ " loads from " ++ LOADS_FILE) ;;
         ret loads)
        (fun e =>
           print ("Error loading " ++ LOADS_FILE ++ ": " ++ Py.str_exn e) ;;
           ret (PList []))
  end.

(** ** Helper functions *)

Definition verify_api_key (cfg : config) (authorization : option string)
  : outcome unit :=
  match authorization with
  | None => Raise (HTTPException 403 "Missing Authorization header")
  | Some a =>
      if negb (PyStr.truthy a)
      then Raise (HTTPException 403 "Missing Authorization header")
      else
        let parts := PyStr.split1 " " a in
        if negb (Nat.eqb (length parts) 2)
           || negb (String.eqb (nth 0 parts "") "ApiKey")
        then Raise (HTTPException 403
                      "Invalid Authorization format. Expected: ApiKey <key>")
        else
          let api_key := nth 1 parts "" in
          if negb (String.eqb api_key (API_KEY cfg))
          then Raise (HTTPException 403 "Invalid API Key")
          else Return tt
  end.

(** ** Endpoints *)

Record root_info := {
  service : string;
  version : string;
  status : string;
  loads_available : nat;
  endpoints : list (string * string)
}.

Definition root (src : loads_source) : M root_info :=
  loads <- load_loads_from_file src ;;
  n <- lift (Py.len loads) ;;
  ret {| service := "HappyRobot Freight API";
         version := "1.0.0";
         status := "operational";
         loads_available := n;
         endpoints := [("verify_carrier", "/api/v1/verify-carrier");
                       ("search_loads", "/api/v1/loads/search")] |}.

(** [client.get(url, params=params)] *)
Definition client_get (fmcsa : registry) (url : string)
    (params : list (string * string)) : M response :=
  emit (HttpGet url params) ;;
  match fmcsa url params with
  | GetRaises e => raise e
  | GetResponse r => ret r
  end.

(** The three [except] clauses of [verify_carrier], in their order. *)
Definition verify_carrier_except (e : exn) : M CarrierVerificationResponse :=
  match e with
  | PyExc TimeoutException _ =>
      raise (HTTPException 504 "FMCSA API request timed out")
  | PyExc RequestError msg =>
      print ("[ERROR] FMCSA Request Error: " ++ msg) ;;
      raise (HTTPException 500 ("Error connecting to FMCSA API: " ++ msg))
  | _ =>
      print ("[ERROR] Unexpected Error: " ++ Py.str_exn e) ;;
      emit PrintTraceback ;;
      raise (HTTPException 500 ("Unexpected error: " ++ Py.str_exn e))
  end.

(** The lines of [verify_carrier] after the carrier substructure is
    found: field extraction, eligibility, operating status, verdict. *)
Definition carrier_verdict (mc : string) (carrier : pyval)
  : outcome CarrierVerificationResponse :=
  legal <~ Py.get carrier "legalName" PNone ;;
  company_name <~ (if Py.truthy legal then Return legal
                   else Py.get carrier "dbaName" (PStr "Unknown")) ;;
  allowed_to_operate <~ Py.get carrier "allowedToOperate" (PStr "N") ;;
  _ <~ Py.get carrier "statusCode" (PStr "") ;;
  safety <~ Py.get carrier "safetyRating" PNone ;;
  oos_date <~ Py.get carrier "oosDate" PNone ;;
  let eligible := Py.eq_str allowed_to_operate "Y" && Py.is_none oos_date in
  let op_status :=
    if Py.truthy oos_date then "Out of Service"
    else if Py.eq_str allowed_to_operate "Y" then "Active"
    else "Not Authorized" in
  let msg := "Carrier is " ++ (if eligible then "eligible" else "not eligible")
             ++ " to operate" in
  CarrierVerificationResponse_new mc eligible company_name safety
    (Some op_status) msg.

(** The body of the [try] of [verify_carrier]. *)
Definition call_fmcsa (cfg : config) (fmcsa : registry) (mc : string)
  : M CarrierVerificationResponse :=
  let url := FMCSA_API_BASE ++ "/carriers/" ++ mc in
  let params := [("webKey", FMCSA_API_KEY cfg)] in
  print ("[DEBUG] Calling FMCSA API: " ++ url) ;;
  print ("[DEBUG] API Key (first 10 chars): "
         ++ PyStr.slice_to 10 (FMCSA_API_KEY cfg) ++ "...") ;;
  resp <- client_get fmcsa url params ;;
  print ("[DEBUG] FMCSA Response Status: " ++ PyStr.of_Z (status_code resp)) ;;
  print ("[DEBUG] FMCSA Response Body: " ++ PyStr.slice_to 500 (text resp)) ;;
  if Z.eqb (status_code resp) 404 then
    ret (not_eligible mc "Carrier not found in FMCSA database")
  else if Z.eqb (status_code resp) 401 then
    raise (HTTPException 500 "Invalid FMCSA API key")
  else if negb (Z.eqb (status_code resp) 200) then
    raise (HTTPException 500
             ("FMCSA API error: " ++ PyStr.of_Z (status_code resp) ++ " - "
              ++ PyStr.slice_to 200 (text resp)))
  else
    data <- lift (json resp) ;;
    content <- lift (Py.get data "content" (PDict ∅)) ;;
    if negb (Py.truthy content) then
      ret (not_eligible mc "Carrier not found in FMCSA database")
    else
      carrier <- lift (Py.get content "carrier" (PDict ∅)) ;;
      if negb (Py.truthy carrier) then
        ret (not_eligible mc "Carrier information not available")
      else
        lift (carrier_verdict mc carrier).

Definition verify_carrier (cfg : config) (fmcsa : registry)
    (mc_number : string) (authorization : option string)
  : M CarrierVerificationResponse :=
  lift (verify_api_key cfg authorization) ;;
  let mc := PyStr.strip mc_number in
  if negb (PyStr.isdigit mc) then
    ret (not_eligible mc "Invalid MC number format")
  else if negb (PyStr.truthy (FMCSA_API_KEY cfg)) then
    raise (HTTPException 500
             "FMCSA API key not configured. Set FMCSA_API_KEY environment variable.")
  else
    try_except (call_fmcsa cfg fmcsa mc) verify_carrier_except.

(** [load.get(key, "").lower()] *)
Definition field_lower (key : string) (load : pyval) : outcome string :=
  v <~ Py.get load key (PStr "") ;;
  Py.lower v.

(** [q in load.get(key, "").lower()] *)
Definition contains_cond (key q : string) (load : pyval) : outcome bool :=
  s <~ field_lower key load ;;
  Return (PyStr.contains q s).

(** [load.get(key, "").lower() == q] *)
Definition equals_cond (key q : string) (load : pyval) : outcome bool :=
  s <~ field_lower key load ;;
  Return (String.eqb s q).

(** One [if param:] block of [search_loads]: the comprehension over
    [results] and the [print] after it. *)
Definition filter_step (name : string) (param : option string)
    (cond : string -> pyval -> outcome bool) (results : pyval) : M pyval :=
  match param with
  | Some p =>
      if PyStr.truthy p then
        let p_lower := PyStr.strip (PyStr.lower p) in
        items <- lift (Py.iter results) ;;
        kept <- lift (Py.list_comp (cond p_lower) items) ;;
        print ("After " ++ name ++ " filter '" ++ p ++ "': "
               ++ PyStr.of_nat (length kept) ++ " loads") ;;
        ret (PList kept)
      else ret results
  | None => ret results
  end.

(** The lines of [search_loads] after the catalog is loaded: the empty
    catalog, the three filters in their order, the empty result and the
    truncation. *)
Definition select_loads (origin destination equipment_type : option string)
    (max_results : Z) (all_loads : pyval) : M pyval :=
  if negb (Py.truthy all_loads) then ret (PList [])
  else
    results <- lift (Py.copy all_loads) ;;
    results <- filter_step "origin" origin (contains_cond "origin") results ;;
    results <- filter_step "destination" destination
                 (contains_cond "destination") results ;;
    results <- filter_step "equipment_type" equipment_type
                 (equals_cond "equipment_type") results ;;
    if negb (Py.truthy results) then
      print ("No loads found matching criteria: origin=" ++ Py.fmt_opt origin
             ++ ", dest=" ++ Py.fmt_opt destination
             ++ ", equip=" ++ Py.fmt_opt equipment_type) ;;
      ret (PList [])
    else
      results <- lift (Py.slice_to results max_results) ;;
      n <- lift (Py.len results) ;;
      print ("Returning " ++ PyStr.of_nat n ++ " loads") ;;
      ret results.

Definition search_loads (cfg : config) (src : loads_source)
    (origin destination equipment_type : option string) (max_results : Z)
    (authorization : option string) : M pyval :=
  lift (verify_api_key cfg authorization) ;;
  all_loads <- load_loads_from_file src ;;
  select_loads origin destination equipment_type max_results all_loads.

(** [max_results: int = Query(5, ge=1, le=20)]: the value the handler
    receives for a query string with or without [max_results]. *)
Definition max_results_query (q : option Z) : outcome Z :=
  match q with
  | None => Return 5%Z
  | Some n =>
      if Z.leb 1 n && Z.leb n 20 then Return n
      else Raise (PyExc RequestValidationError "max_results")
  end.

(** ** Vocabulary of the specification *)

(** The catalog: the records of the list the source parses to; an absent
    or unreadable source has none. *)
Definition catalog (src : loads_source) : list pyval :=
  match src with
  | SourcePresent (ReadParsed (PList l)) => l
  | _ => []
  end.

(** The text of a field of a load record; a record without the field has
    the empty text. *)
Definition field_text (key : string) (load : pyval) : option string :=
  match load with
  | PDict d =>
      match default (PStr "") (d !! key) with
      | PStr s => Some s
      | _ => None
      end
  | _ => None
  end.

(** A filter is supplied when its parameter is given and not empty. *)
Definition supplied (param : option string) : option string :=
  match param with
  | Some p => if PyStr.truthy p then Some p else None
  | None => None
  end.

(** The query as it is compared: case-folded, then trimmed. *)
Definition trimmed_query (p : string) : string := PyStr.strip (PyStr.lower p).

(** Case-insensitive containment of the trimmed query in a field. *)
Definition contains_filter (key : string) (param : option string)
    (load : pyval) : bool :=
  match supplied param with
  | None => true
  | Some p =>
      match field_text key load with
      | Some s => PyStr.contains (trimmed_query p) (PyStr.lower s)
      | None => false
      end
  end.

(** Case-insensitive equality of a field with the trimmed query. *)
Definition equals_filter (key : string) (param : option string)
    (load : pyval) : bool :=
  match supplied param with
  | None => true
  | Some p =>
      match field_text key load with
      | Some s => String.eqb (PyStr.lower s) (trimmed_query p)
      | None => false
      end
  end.

(** A record matches when it passes every supplied filter. *)
Definition matches (origin destination equipment_type : option string)
    (load : pyval) : bool :=
  contains_filter "origin" origin load
  && contains_filter "destination" destination load
  && equals_filter "equipment_type" equipment_type load.

(** A record of the shape of [LoadResponse], as far as the search reads
    it: a dict whose three searched fields, where present, are strings. *)
Definition well_formed (load : pyval) : bool :=
  bool_decide (is_Some (field_text "origin" load))
  && bool_decide (is_Some (field_text "destination" load))
  && bool_decide (is_Some (field_text "equipment_type" load)).

Definition whitespace_only (s : string) : bool :=
  PyStr.truthy s && PyStr.all_chars PyStr.isspace_char s.

(** A character of [s] fails [p]. *)
Definition some_char_not (p : ascii -> bool) (s : string) : bool :=
  negb (PyStr.all_chars p s).

(** At least one character, all of them in ['0'..'9']. *)
Definition all_decimal (s : string) : bool :=
  PyStr.truthy s && PyStr.all_chars PyStr.isdecimal_char s.

(** The credential header the gate lets through. *)
Definition good_header (cfg : config) : string := "ApiKey " ++ API_KEY cfg.

(** The three ways a credential header is refused: absent, not of the
    form ["ApiKey <token>"], or with a token that is not the secret. *)
Definition bad_credential (cfg : config) (authorization : option string) : Prop :=
  authorization = None
  \/ (exists a, authorization = Some a /\ forall tok, a <> "ApiKey " ++ tok)
  \/ (exists tok, authorization = Some ("ApiKey " ++ tok) /\ tok <> API_KEY cfg).

(** An authorization failure: HTTP 403. *)
Definition authorization_failure {A} (m : M A) : Prop :=
  exists detail, m = ([], Raise (HTTPException 403 detail)).

(** The registry answers every request with the response [r]. *)
Definition answers (r : response) : registry := fun _ _ => GetResponse r.

(** A success response whose body carries the carrier substructure [c]. *)
Definition carrier_response (body : string) (c : gmap string pyval) : response :=
  {| status_code := 200; text := body;
     json := Return (PDict {["content" := PDict {["carrier" := PDict c]}]}) |}.

(** What a condition of a comprehension decides for a record: [true]
    when it evaluates to [True], [false] when it evaluates to [False] or
    raises. *)
Definition holds (cond : pyval -> outcome bool) (load : pyval) : bool :=
  match cond load with
  | Return true => true
  | _ => false
  end.

(** What one filter block keeps: everything when the parameter is not
    supplied. *)
Definition step_filter (param : option string)
    (cond : string -> pyval -> outcome bool) (load : pyval) : bool :=
  match supplied param with
  | None => true
  | Some p => holds (cond (trimmed_query p)) load
  end.

(** The items of a list value. *)
Definition items (v : pyval) : list pyval :=
  match v with
  | PList l => l
  | _ => []
  end.

(** The value the loader hands to its caller. *)
Definition loaded (src : loads_source) : pyval :=
  match src with
  | SourcePresent (ReadParsed v) =>
      match v with
      | PStr _ | PList _ | PDict _ => v
      | _ => PList []
      end
  | _ => PList []
  end.

(** ** Sample data *)

Definition sample_cfg : config :=
  {| API_KEY := "secret"; FMCSA_API_KEY := "web-key" |}.

(** The same service without the registry credential. *)
Definition sample_cfg_no_registry : config :=
  {| API_KEY := "secret"; FMCSA_API_KEY := "" |}.

Definition sample_header : option string := Some "ApiKey secret".

Definition load_record (id origin destination equipment : string) : pyval :=
  PDict (<["load_id" := PStr id]>
        (<["origin" := PStr origin]>
        (<["destination" := PStr destination]>
        {["equipment_type" := PStr equipment]}))).

Definition load_chicago : pyval :=
  load_record "L1" "Chicago, IL" "Dallas, TX" "Dry Van".
Definition load_dallas : pyval :=
  load_record "L2" "Dallas, TX" "Miami, FL" "Reefer".
Definition load_plus : pyval :=
  load_record "L3" "Chicago, IL" "Miami, FL" "Dry Van Plus".

Definition sample_catalog : list pyval := [load_chicago; load_dallas; load_plus].

Definition sample_source : loads_source :=
  SourcePresent (ReadParsed (PList sample_catalog)).

(** A registry that knows no carrier. *)
Definition not_found_response : response :=
  {| status_code := 404; text := "Not Found";
     json := Raise (PyExc OtherException "Expecting value") |}.

(** A carrier allowed to operate whose out-of-service date is the empty
    string. *)
Definition carrier_empty_oos : gmap string pyval :=
  <["legalName" := PStr "ABC Trucking LLC"]>
  (<["allowedToOperate" := PStr "Y"]>
  {["oosDate" := PStr ""]}).

(** A carrier allowed to operate and put out of service on a date. *)
Definition carrier_out_of_service : gmap string pyval :=
  <["legalName" := PStr "ABC Trucking LLC"]>
  (<["allowedToOperate" := PStr "Y"]>
  {["oosDate" := PStr "2023-01-01"]}).

(** The identifier "²": the one character U+00B2. *)
Definition superscript_two : string := String (ascii_of_N 178) "".

(** ** Vocabulary of the further properties *)

Definition is_http_get (ev : event) : bool :=
  match ev with
  | HttpGet _ _ => true
  | _ => false
  end.

(** The requests to the registry among the events of a run. *)
Definition http_gets (t : list event) : list event := List.filter is_http_get t.

(** A registry whose every request ends in the exception [e]. *)
Definition fails (e : exn) : registry := fun _ _ => GetRaises e.

(** The address [verify_carrier] asks the registry at. *)
Definition carrier_url (mc : string) : string :=
  FMCSA_API_BASE ++ "/carriers/" ++ mc.

(** A request that reaches the registry: it passes the gate, its trimmed
    identifier passes [isdigit], and the registry credential is set. *)
Definition reaches_registry (cfg : config) (mc : string)
    (authorization : option string) : Prop :=
  verify_api_key cfg authorization = Return tt
  /\ PyStr.isdigit (PyStr.strip mc) = true
  /\ FMCSA_API_KEY cfg <> "".

(** A load record whose origin is a number. *)
Definition load_bad_origin : pyval :=
  PDict (<["load_id" := PStr "L4"]> {["origin" := PInt 7]}).

(** A carrier known under its trade name only. *)
Definition carrier_dba_only : gmap string pyval :=
  <["dbaName" := PStr "Fast Freight"]>
  (<["allowedToOperate" := PStr "Y"]>
  {["safetyRating" := PStr "Satisfactory"]}).

(** * Properties *)

(** ** The monad *)

Lemma result_bind {A B} (m : M A) (k : A -> M B) :
  result (bind m k) =
  match result m with
  | Return a => result (k a)
  | Raise e => Raise e
  end.
Proof.
  destruct m as [t [a|e]]; simpl; [|done].
  by destruct (k a).
Qed.

Lemma result_bind_ext {A B} (m : M A) (k k' : A -> M B) :
  (forall a, result (k a) = result (k' a)) ->
  result (bind m k) = result (bind m k').
Proof. intros H. rewrite !result_bind. destruct (result m); auto. Qed.

(** Two runs that differ only in what follows the same first step. *)
Ltac same_bind := apply result_bind_ext; intros ?.

Lemma trace_bind {A B} (m : M A) (k : A -> M B) :
  trace (bind m k) =
  match result m with
  | Return a => (trace m ++ trace (k a))%list
  | Raise e => trace m
  end.
Proof.
  destruct m as [t [a|e]]; simpl; [|done].
  by destruct (k a).
Qed.

Lemma bind_lift_Return {A B} (a : A) (k : A -> M B) :
  bind (lift (Return a)) k = k a.
Proof. unfold bind, lift. by destruct (k a). Qed.

Lemma bind_lift_Raise {A B} (e : exn) (k : A -> M B) :
  bind (lift (Raise e)) k = ([], Raise e).
Proof. done. Qed.

Lemma run_eta {A} (m : M A) : m = (trace m, result m).
Proof. by destruct m. Qed.

(** ** Strings *)

Section strings.
Import PyStr.

Lemma app_cons c a s : String c a ++ s = String c (a ++ s).
Proof. reflexivity. Qed.

Lemma app_nil s : "" ++ s = s.
Proof. reflexivity. Qed.

Lemma cut_Some sep s a b :
  cut sep s = Some (a, b) -> s = a ++ String sep b.
Proof.
  revert a. induction s as [|c s IH]; intros a; simpl; [done|].
  destruct (Ascii.eqb_spec c sep) as [->|Hne].
  - by intros [= <- <-].
  - destruct (cut sep s) as [[a' b']|]; [|done].
    intros [= <- <-]. rewrite app_cons. f_equal. by apply IH.
Qed.

Lemma cut_ApiKey tok : cut " " ("ApiKey " ++ tok) = Some ("ApiKey", tok).
Proof. reflexivity. Qed.


Lemma startswith_app p s : startswith p (p ++ s) = true.
Proof.
  induction p as [|c p IH]; [done|].
  rewrite app_cons. simpl. by rewrite Ascii.eqb_refl.
Qed.

Lemma startswith_inv p s :
  startswith p s = true -> exists t, s = p ++ t.
Proof.
  revert s. induction p as [|c p IH]; intros s; simpl.
  - by exists s.
  - destruct s as [|b s]; [done|].
    destruct (Ascii.eqb_spec c b) as [->|]; [|done].
    intros [t ->]%IH. by exists t.
Qed.

Lemma contains_startswith sub s :
  startswith sub s = true -> contains sub s = true.
Proof. destruct s; simpl; by intros ->. Qed.

(** [sub in s] holds exactly when [sub] occurs in [s]. *)
Lemma contains_spec sub s :
  contains sub s = true <-> exists a b, s = a ++ sub ++ b.
Proof.
  split.
  - induction s as [|c s IH]; simpl.
    + rewrite orb_false_r. intros [t ->]%startswith_inv. by exists "", t.
    + intros [[t ->]%startswith_inv|[a [b ->]]%IH]%orb_true_iff.
      * by exists "", t.
      * by exists (String c a), b.
  - intros (a & b & ->). induction a as [|c a IH].
    + rewrite app_nil. apply contains_startswith, startswith_app.
    + rewrite app_cons. simpl. rewrite IH. by rewrite orb_true_r.
Qed.

Lemma lower_char_space c : isspace_char c = true -> lower_char c = c.
Proof.
  destruct c as [[] [] [] [] [] [] [] []]; vm_compute; congruence.
Qed.

Lemma lower_whitespace s :
  all_chars isspace_char s = true -> lower s = s.
Proof.
  induction s as [|c s IH]; simpl; [done|].
  intros [Hc Hs]%andb_true_iff. by rewrite lower_char_space, IH.
Qed.

Lemma lstrip_whitespace s :
  all_chars isspace_char s = true -> lstrip s = "".
Proof.
  induction s as [|c s IH]; simpl; [done|].
  intros [-> Hs]%andb_true_iff. by apply IH.
Qed.

(** A query of whitespace alone is trimmed to the empty string. *)
Lemma strip_lower_whitespace s :
  all_chars isspace_char s = true -> strip (lower s) = "".
Proof.
  intros H. rewrite lower_whitespace by done.
  unfold strip. by rewrite lstrip_whitespace.
Qed.

Lemma isdigit_false_of_char s :
  some_char_not isdigit_char s = true -> isdigit s = false.
Proof.
  unfold some_char_not, isdigit. intros H%negb_true_iff.
  by destruct s.
Qed.

Lemma isdecimal_isdigit_char c :
  isdecimal_char c = true -> isdigit_char c = true.
Proof. unfold isdecimal_char, isdigit_char. by intros ->. Qed.

Lemma all_chars_impl (p q : ascii -> bool) s :
  (forall c, p c = true -> q c = true) ->
  all_chars p s = true -> all_chars q s = true.
Proof.
  intros Hpq. induction s as [|c s IH]; simpl; [done|].
  intros [Hc Hs]%andb_true_iff. by rewrite (Hpq c Hc), IH.
Qed.

Lemma lstrip_no_space s :
  all_chars (fun c => negb (isspace_char c)) s = true -> lstrip s = s.
Proof. destruct s as [|c s]; simpl; [done|]. by intros [->%negb_true_iff _]%andb_true_iff. Qed.

Lemma rstrip_no_space s :
  all_chars (fun c => negb (isspace_char c)) s = true -> rstrip s = s.
Proof.
  induction s as [|c s IH]; simpl; [done|].
  intros [Hc%negb_true_iff Hs]%andb_true_iff.
  rewrite IH by done. rewrite Hc. by destruct s.
Qed.

Lemma decimal_not_space c : isdecimal_char c = true -> negb (isspace_char c) = true.
Proof.
  destruct c as [[] [] [] [] [] [] [] []]; vm_compute; congruence.
Qed.

(** An all-decimal identifier is left alone by [strip] and passes
    [isdigit]. *)
Lemma all_decimal_strip s : all_decimal s = true -> strip s = s.
Proof.
  intros [_ H]%andb_true_iff.
  pose proof (all_chars_impl _ _ _ decimal_not_space H) as Hs.
  unfold strip. by rewrite lstrip_no_space, rstrip_no_space.
Qed.

Lemma all_decimal_isdigit s : all_decimal s = true -> isdigit s = true.
Proof.
  intros [Ht H]%andb_true_iff. destruct s; [done|].
  unfold isdigit. by apply (all_chars_impl _ _ _ isdecimal_isdigit_char).
Qed.

End strings.

(** ** The authentication gate *)

Lemma verify_api_key_good cfg :
  verify_api_key cfg (Some (good_header cfg)) = Return tt.
Proof.
  unfold verify_api_key, good_header, PyStr.split1.
  rewrite cut_ApiKey. simpl.
  by rewrite String.eqb_refl.
Qed.

(** The gate lets through the header ["ApiKey <secret>"] and no other. *)
Lemma verify_api_key_Return cfg authorization :
  verify_api_key cfg authorization = Return tt <->
  authorization = Some (good_header cfg).
Proof.
  split; [|intros ->; apply verify_api_key_good].
  unfold verify_api_key, PyStr.split1.
  destruct authorization as [a|]; [|done].
  destruct (PyStr.truthy a); simpl; [|done].
  destruct (PyStr.cut " " a) as [[x y]|] eqn:Hcut; simpl; [|done].
  destruct (String.eqb_spec x "ApiKey") as [->|]; simpl; [|done].
  destruct (String.eqb_spec y (API_KEY cfg)) as [->|]; simpl; [|done].
  intros _. by rewrite (cut_Some _ _ _ _ Hcut).
Qed.

(** Whatever the gate refuses, it refuses with status 403. *)
Lemma verify_api_key_cases cfg authorization :
  verify_api_key cfg authorization = Return tt \/
  exists detail,
    verify_api_key cfg authorization = Raise (HTTPException 403 detail).
Proof.
  unfold verify_api_key.
  destruct authorization as [a|]; [|eauto].
  destruct (PyStr.truthy a); simpl; [|eauto].
  destruct (_ || _); [eauto|].
  destruct (negb _); [eauto|]. by left.
Qed.

Lemma bad_credential_not_good cfg authorization :
  bad_credential cfg authorization ->
  authorization <> Some (good_header cfg).
Proof.
  unfold good_header.
  intros [->|[(a & -> & Hform)|(tok & -> & Hne)]]; [done| |].
  - intros [= ->]. by apply (Hform (API_KEY cfg)).
  - intros [= E]. by apply Hne.
Qed.

Lemma bad_credential_refused cfg authorization :
  bad_credential cfg authorization ->
  exists detail,
    verify_api_key cfg authorization = Raise (HTTPException 403 detail).
Proof.
  intros Hbad%bad_credential_not_good.
  destruct (verify_api_key_cases cfg authorization) as [Hok|?]; [|done].
  by apply verify_api_key_Return in Hok.
Qed.

(** A refused request ends [verify_carrier] at its first line. *)
Lemma verify_carrier_refused cfg fmcsa mc authorization e :
  verify_api_key cfg authorization = Raise e ->
  verify_carrier cfg fmcsa mc authorization = ([], Raise e).
Proof. unfold verify_carrier. by intros ->. Qed.

(** A refused request ends [search_loads] at its first line. *)
Lemma search_loads_refused cfg src o d eq n authorization e :
  verify_api_key cfg authorization = Raise e ->
  search_loads cfg src o d eq n authorization = ([], Raise e).
Proof. unfold search_loads. by intros ->. Qed.

(** C8. A request to a protected operation (carrier verification or load
    search) whose credential header is absent, or is not of the form
    ["ApiKey <token>"], or carries a token different from the configured
    secret, is rejected with an authorization failure (HTTP 403) before
    anything else happens: the trace of the run is empty, so nothing was
    printed, no file was read and no request was sent. *)
Theorem protected_operations_reject_bad_credential
    cfg fmcsa src mc origin destination equipment_type max_results authorization :
  bad_credential cfg authorization ->
  authorization_failure (verify_carrier cfg fmcsa mc authorization)
  /\ authorization_failure
       (search_loads cfg src origin destination equipment_type max_results
          authorization).
Proof.
  intros [detail Hd]%bad_credential_refused.
  split; exists detail.
  - by apply verify_carrier_refused.
  - by apply search_loads_refused.
Qed.

(** ** The catalog loader *)

Lemma loader_result src :
  result (load_loads_from_file src) = Return (loaded src).
Proof. destruct src as [|[e|v]]; [done|done|]. by destruct v. Qed.



Lemma items_loaded src : items (loaded src) = catalog src.
Proof. destruct src as [|[e|v]]; [done|done|]. by destruct v. Qed.

(** ** The load search *)

Lemma list_comp_Return cond l rs :
  Py.list_comp cond l = Return rs -> rs = filter (holds cond) l.
Proof.
  revert rs. induction l as [|x l IH]; intros rs; simpl.
  - by intros [= <-].
  - destruct (cond x) as [b|e] eqn:Hx; simpl; [|done].
    destruct (Py.list_comp cond l) as [r|e]; simpl; [|done].
    intros [= <-]. rewrite (IH r eq_refl).
    destruct b.
    + rewrite filter_cons_True; [done|]. unfold holds. by rewrite Hx.
    + rewrite filter_cons_False; [done|]. unfold holds. rewrite Hx. by intros ?.
Qed.

Lemma list_comp_total cond l :
  Forall (fun x => exists b, cond x = Return b) l ->
  Py.list_comp cond l = Return (filter (holds cond) l).
Proof.
  induction 1 as [|x l [b Hx] _ IH]; simpl; [done|].
  rewrite Hx, IH. simpl. f_equal.
  destruct b.
  - rewrite filter_cons_True; [done|]. unfold holds. by rewrite Hx.
  - rewrite filter_cons_False; [done|]. unfold holds. rewrite Hx. by intros ?.
Qed.

Lemma list_comp_raises cond x l e :
  cond x = Raise e -> Py.list_comp cond (x :: l) = Raise e.
Proof. simpl. by intros ->. Qed.

Lemma field_lower_Some key load s :
  field_text key load = Some s -> field_lower key load = Return (PyStr.lower s).
Proof.
  unfold field_text, field_lower. destruct load; try done. simpl.
  destruct (default _ _); try done. by intros [= ->].
Qed.

Lemma field_lower_None key load :
  field_text key load = None -> exists e, field_lower key load = Raise e.
Proof.
  unfold field_text, field_lower. destruct load; simpl; eauto.
  destruct (default _ _); simpl; eauto. done.
Qed.

Lemma field_lower_Return key load t :
  field_lower key load = Return t ->
  exists s, field_text key load = Some s /\ t = PyStr.lower s.
Proof.
  destruct (field_text key load) as [s|] eqn:E.
  - rewrite (field_lower_Some _ _ _ E). intros [= <-]. eauto.
  - destruct (field_lower_None _ _ E) as [e ->]. done.
Qed.

Lemma holds_contains_cond key q load :
  holds (contains_cond key q) load =
  match field_text key load with
  | Some s => PyStr.contains q (PyStr.lower s)
  | None => false
  end.
Proof.
  unfold holds, contains_cond.
  destruct (field_text key load) as [s|] eqn:E.
  - rewrite (field_lower_Some _ _ _ E). simpl. by destruct (PyStr.contains _ _).
  - by destruct (field_lower_None _ _ E) as [e ->].
Qed.

Lemma holds_equals_cond key q load :
  holds (equals_cond key q) load =
  match field_text key load with
  | Some s => String.eqb (PyStr.lower s) q
  | None => false
  end.
Proof.
  unfold holds, equals_cond.
  destruct (field_text key load) as [s|] eqn:E.
  - rewrite (field_lower_Some _ _ _ E). simpl. by destruct (String.eqb _ _).
  - by destruct (field_lower_None _ _ E) as [e ->].
Qed.

Lemma step_filter_contains key param load :
  step_filter param (contains_cond key) load = contains_filter key param load.
Proof.
  unfold step_filter, contains_filter.
  destruct (supplied param); [|done]. apply holds_contains_cond.
Qed.

Lemma step_filter_equals key param load :
  step_filter param (equals_cond key) load = equals_filter key param load.
Proof.
  unfold step_filter, equals_filter.
  destruct (supplied param); [|done]. apply holds_equals_cond.
Qed.

Lemma filter_all_true {A} (p : A -> bool) (l : list A) :
  (forall x, p x = true) -> filter p l = l.
Proof.
  intros Hp. induction l as [|x l IH]; [done|].
  rewrite filter_cons_True by (by rewrite Hp). by rewrite IH.
Qed.

Lemma filter_ext_bool {A} (p q : A -> bool) (l : list A) :
  (forall x, p x = q x) -> filter p l = filter q l.
Proof. intros Hpq. apply list_filter_iff. intros x. by rewrite Hpq. Qed.

Lemma filter_step_supplied name param cond results :
  filter_step name param cond results =
  match supplied param with
  | Some p =>
      items <- lift (Py.iter results) ;;
      kept <- lift (Py.list_comp (cond (trimmed_query p)) items) ;;
      print ("After " ++ name ++ " filter '" ++ p ++ "': "
             ++ PyStr.of_nat (length kept) ++ " loads") ;;
      ret (PList kept)
  | None => ret results
  end.
Proof.
  unfold filter_step, supplied.
  destruct param as [p|]; [|done]. by destruct (PyStr.truthy p).
Qed.

(** A filter block over a list keeps the records its condition holds
    for, in their order. *)
Lemma filter_step_list name param cond l v :
  result (filter_step name param cond (PList l)) = Return v ->
  v = PList (filter (step_filter param cond) l).
Proof.
  rewrite filter_step_supplied. unfold step_filter.
  destruct (supplied param) as [p|].
  - simpl Py.iter. rewrite bind_lift_Return.
    destruct (Py.list_comp (cond (trimmed_query p)) l)
      as [kept|e] eqn:Hcomp; [|done].
    rewrite bind_lift_Return. simpl. intros [= <-].
    by rewrite (list_comp_Return _ _ _ Hcomp).
  - intros [= <-]. f_equal. symmetry.
    exact (filter_all_true (fun _ => true) l (fun _ => eq_refl)).
Qed.

(** Over records whose searched field can be read, a filter block
    returns. *)
Lemma filter_step_total name param cond l :
  (forall q, Forall (fun x => exists b, cond q x = Return b) l) ->
  result (filter_step name param cond (PList l)) =
  Return (PList (filter (step_filter param cond) l)).
Proof.
  intros Hok. rewrite filter_step_supplied. unfold step_filter.
  destruct (supplied param) as [p|].
  - simpl Py.iter. rewrite bind_lift_Return.
    by rewrite (list_comp_total _ _ (Hok _)), bind_lift_Return.
  - simpl. do 2 f_equal. symmetry.
    exact (filter_all_true (fun _ => true) l (fun _ => eq_refl)).
Qed.

(** Over a non-empty dict a filter block that is supplied raises: the
    comprehension visits the keys, which are strings. *)
Lemma filter_step_dict name param cond d v :
  (forall q k, exists e, cond q (PStr k) = Raise e) ->
  size d <> 0 ->
  result (filter_step name param cond (PDict d)) = Return v ->
  v = PDict d /\ supplied param = None.
Proof.
  intros Hcond Hsize. rewrite filter_step_supplied.
  destruct (supplied param) as [p|].
  - simpl Py.iter. rewrite bind_lift_Return.
    destruct (map_to_list d) as [|[k x] rest] eqn:Hd.
    + apply map_to_list_empty_iff in Hd. by apply map_size_non_empty_iff in Hsize.
    + simpl. destruct (Hcond (trimmed_query p) k) as [e ->]. done.
  - by intros [= <-].
Qed.

Lemma contains_cond_str key q k : exists e, contains_cond key q (PStr k) = Raise e.
Proof. unfold contains_cond, field_lower. simpl. eauto. Qed.

Lemma equals_cond_str key q k : exists e, equals_cond key q (PStr k) = Raise e.
Proof. unfold equals_cond, field_lower. simpl. eauto. Qed.

Lemma list_slice_to_nil {A} n : Py.list_slice_to n (@nil A) = [].
Proof. unfold Py.list_slice_to. destruct (Z.leb 0 n); apply take_nil. Qed.

Lemma matches_steps o d e (l : list pyval) :
  filter (step_filter e (equals_cond "equipment_type"))
    (filter (step_filter d (contains_cond "destination"))
       (filter (step_filter o (contains_cond "origin")) l))
  = filter (matches o d e) l.
Proof.
  rewrite !list_filter_filter. apply list_filter_iff. intros x.
  rewrite !step_filter_contains, step_filter_equals. unfold matches.
  destruct (contains_filter "origin" o x), (contains_filter "destination" d x),
    (equals_filter "equipment_type" e x); simpl; tauto.
Qed.

(** The last lines of the search over a list: the empty result, or the
    truncated one. *)
Lemma select_loads_list o d e n l v :
  result (select_loads o d e n (PList l)) = Return v ->
  v = PList (Py.list_slice_to n (filter (matches o d e) l)).
Proof.
  unfold select_loads. destruct l as [|x0 l0].
  { simpl. intros [= <-]. by rewrite filter_nil, list_slice_to_nil. }
  set (l := x0 :: l0). simpl negb. cbv iota. simpl Py.copy.
  rewrite bind_lift_Return, result_bind.
  destruct (result (filter_step "origin" _ _ _)) as [r1|] eqn:H1; [|done].
  apply filter_step_list in H1 as ->.
  rewrite result_bind.
  destruct (result (filter_step "destination" _ _ _)) as [r2|] eqn:H2; [|done].
  apply filter_step_list in H2 as ->.
  rewrite result_bind.
  destruct (result (filter_step "equipment_type" _ _ _)) as [r3|] eqn:H3; [|done].
  apply filter_step_list in H3 as ->.
  rewrite matches_steps.
  destruct (filter (matches o d e) l) as [|y ys].
  - simpl. intros [= <-]. by rewrite list_slice_to_nil.
  - simpl. by intros [= <-].
Qed.

Lemma select_loads_falsy o d e n v :
  Py.truthy v = false -> select_loads o d e n v = ret (PList []).
Proof. unfold select_loads. by intros ->. Qed.

Lemma truthy_items_nil v : Py.truthy v = false -> items v = [].
Proof. destruct v as [| | | | |[|x l]|]; simpl; done. Qed.

(** Over a non-empty dict the search never returns: a supplied filter
    raises on the first key, and without one the slice raises. *)
Lemma select_loads_dict o d e n m :
  size m <> 0 -> exists x, result (select_loads o d e n (PDict m)) = Raise x.
Proof.
  intros Hsize. unfold select_loads. simpl Py.truthy.
  destruct (Nat.eqb_spec (size m) 0) as [|_]; [done|].
  simpl negb. cbv iota. simpl Py.copy. rewrite bind_lift_Return, result_bind.
  destruct (result (filter_step "origin" _ _ _)) as [r1|] eqn:H1; [|eauto].
  apply filter_step_dict in H1 as [-> _];
    [|apply contains_cond_str|done].
  rewrite result_bind.
  destruct (result (filter_step "destination" _ _ _)) as [r2|] eqn:H2; [|eauto].
  apply filter_step_dict in H2 as [-> _];
    [|apply contains_cond_str|done].
  rewrite result_bind.
  destruct (result (filter_step "equipment_type" _ _ _)) as [r3|] eqn:H3; [|eauto].
  apply filter_step_dict in H3 as [-> _];
    [|apply equals_cond_str|done].
  simpl Py.truthy.
  destruct (Nat.eqb_spec (size m) 0) as [|_]; [done|].
  simpl. eauto.
Qed.

(** Whatever was loaded, a search that returns, returns the matching
    records of the catalog, in catalog order, cut after [max_results]. *)
Lemma select_loads_Return o d e n v w :
  result (select_loads o d e n v) = Return w ->
  w = PList (Py.list_slice_to n (filter (matches o d e) (items v))).
Proof.
  destruct (Py.truthy v) eqn:Ht.
  2:{ rewrite (select_loads_falsy o d e n v Ht). intros [= <-].
      by rewrite (truthy_items_nil v Ht), filter_nil, list_slice_to_nil. }
  destruct v as [|b|z|f|s|l|m];
    try (unfold select_loads; rewrite Ht; simpl; done).
  - apply select_loads_list.
  - intros Hret. destruct (select_loads_dict o d e n m) as [x Hx]; [|congruence].
    simpl in Ht. by destruct (Nat.eqb_spec (size m) 0).
Qed.

Lemma well_formed_fields load :
  well_formed load = true ->
  is_Some (field_text "origin" load)
  /\ is_Some (field_text "destination" load)
  /\ is_Some (field_text "equipment_type" load).
Proof.
  unfold well_formed.
  intros [[?%bool_decide_eq_true ?%bool_decide_eq_true]%andb_true_iff
            ?%bool_decide_eq_true]%andb_true_iff.
  done.
Qed.

Lemma contains_cond_total key q load :
  is_Some (field_text key load) -> exists b, contains_cond key q load = Return b.
Proof.
  intros [s Hs]. unfold contains_cond.
  rewrite (field_lower_Some _ _ _ Hs). simpl. eauto.
Qed.

Lemma equals_cond_total key q load :
  is_Some (field_text key load) -> exists b, equals_cond key q load = Return b.
Proof.
  intros [s Hs]. unfold equals_cond.
  rewrite (field_lower_Some _ _ _ Hs). simpl. eauto.
Qed.

Lemma Forall_filter_keep {A} (P : A -> Prop) (q : A -> bool) (l : list A) :
  Forall P l -> Forall P (filter q l).
Proof.
  rewrite !Forall_forall. intros H x [_ Hx]%list_elem_of_filter. by apply H.
Qed.

(** Over a catalog of well-formed records the search returns. *)
Lemma select_loads_total o d e n l :
  Forall (fun r => well_formed r = true) l ->
  result (select_loads o d e n (PList l)) =
  Return (PList (Py.list_slice_to n (filter (matches o d e) l))).
Proof.
  intros Hwf. unfold select_loads. destruct l as [|x0 l0].
  { simpl. by rewrite filter_nil, list_slice_to_nil. }
  set (l := x0 :: l0) in *. simpl negb. cbv iota. simpl Py.copy.
  assert (forall key q (k : list pyval),
             Forall (fun r => well_formed r = true) k ->
             key = "origin" \/ key = "destination" ->
             Forall (fun x => exists b, contains_cond key q x = Return b) k)
    as Hc.
  { intros key q k Hk Hkey. eapply Forall_impl; [exact Hk|].
    intros r (? & ? & ?)%well_formed_fields.
    apply contains_cond_total. by destruct Hkey as [->| ->]. }
  rewrite bind_lift_Return, result_bind.
  rewrite filter_step_total by (intros q; apply Hc; auto).
  rewrite result_bind.
  rewrite filter_step_total
    by (intros q; apply Hc; [by apply Forall_filter_keep|auto]).
  rewrite result_bind.
  rewrite filter_step_total.
  2:{ intros q. eapply Forall_impl; [by do 2 apply Forall_filter_keep|].
      intros r (? & ? & ?)%well_formed_fields. by apply equals_cond_total. }
  rewrite matches_steps.
  destruct (filter (matches o d e) l) as [|y ys].
  - simpl. by rewrite list_slice_to_nil.
  - reflexivity.
Qed.

Lemma search_loads_authorized cfg src o d e n authorization :
  verify_api_key cfg authorization = Return tt ->
  result (search_loads cfg src o d e n authorization) =
  result (select_loads o d e n (loaded src)).
Proof.
  intros Hok. unfold search_loads.
  by rewrite Hok, bind_lift_Return, result_bind, loader_result.
Qed.

(** A search that returns was authorized. *)
Lemma search_loads_Return_authorized cfg src o d e n authorization v :
  result (search_loads cfg src o d e n authorization) = Return v ->
  verify_api_key cfg authorization = Return tt.
Proof.
  destruct (verify_api_key cfg authorization) as [[]|x] eqn:Hk; [done|].
  by rewrite (search_loads_refused _ _ _ _ _ _ _ _ Hk).
Qed.

Lemma search_loads_Return cfg src o d e n authorization v :
  result (search_loads cfg src o d e n authorization) = Return v ->
  v = PList (Py.list_slice_to n (filter (matches o d e) (catalog src))).
Proof.
  intros Hret.
  pose proof (search_loads_Return_authorized _ _ _ _ _ _ _ _ Hret) as Hok.
  rewrite (search_loads_authorized _ _ _ _ _ _ _ Hok) in Hret.
  apply select_loads_Return in Hret. by rewrite items_loaded in Hret.
Qed.

Lemma list_slice_to_sublist {A} n (l : list A) :
  Py.list_slice_to n l `sublist_of` l.
Proof. unfold Py.list_slice_to. destruct (Z.leb 0 n); apply sublist_take. Qed.

Lemma list_slice_to_take {A} n (l : list A) :
  (0 <= n)%Z -> Py.list_slice_to n l = take (Z.to_nat n) l.
Proof. unfold Py.list_slice_to. by intros ->%Z.leb_le. Qed.

Lemma contains_filter_supplied key param q r :
  supplied param = Some q ->
  contains_filter key param r = true ->
  exists s, field_text key r = Some s
            /\ PyStr.contains (trimmed_query q) (PyStr.lower s) = true.
Proof.
  unfold contains_filter. intros ->.
  destruct (field_text key r) as [s|]; [|done]. eauto.
Qed.

Lemma equals_filter_supplied key param q r :
  supplied param = Some q ->
  equals_filter key param r = true ->
  exists s, field_text key r = Some s /\ PyStr.lower s = trimmed_query q.
Proof.
  unfold equals_filter. intros ->.
  destruct (field_text key r) as [s|]; [|done].
  intros ?%String.eqb_eq. eauto.
Qed.

Lemma matches_omitted o d e r :
  supplied o = None -> supplied d = None -> supplied e = None ->
  matches o d e r = true.
Proof. unfold matches, contains_filter, equals_filter. by intros -> -> ->. Qed.

Lemma elem_of_slice_filter n (p : pyval -> bool) (l : list pyval) r :
  r ∈ Py.list_slice_to n (filter p l) -> r ∈ l /\ p r = true.
Proof.
  intros Hr.
  pose proof (elem_of_sublist _ _ _ Hr (list_slice_to_sublist n _)) as Hf.
  apply list_elem_of_filter in Hf as [Hp ?]. split; [done|].
  by apply Is_true_true.
Qed.

(** C2. Whatever the catalog and whatever combination of origin,
    destination and equipment-type parameters, every record the load
    search returns is a record of the catalog and passes every filter
    that was supplied: its origin, case-folded, contains the case-folded
    and trimmed origin query, likewise for the destination, and its
    equipment type, case-folded, equals the case-folded and trimmed
    equipment query.  Filters that are not supplied exclude nothing: the
    result is the list of the catalog records passing the supplied
    filters (all of the catalog when none is supplied), cut by the
    slice [[:max_results]].  A parameter given as the empty string is not
    supplied. *)
Theorem search_loads_results_satisfy_filters
    cfg src origin destination equipment_type max_results authorization v :
  result (search_loads cfg src origin destination equipment_type max_results
            authorization) = Return v ->
  exists rs,
    v = PList rs
    /\ (forall r, r ∈ rs ->
          r ∈ catalog src
          /\ (forall q, supplied origin = Some q ->
                exists s, field_text "origin" r = Some s
                  /\ PyStr.contains (PyStr.strip (PyStr.lower q))
                       (PyStr.lower s) = true)
          /\ (forall q, supplied destination = Some q ->
                exists s, field_text "destination" r = Some s
                  /\ PyStr.contains (PyStr.strip (PyStr.lower q))
                       (PyStr.lower s) = true)
          /\ (forall q, supplied equipment_type = Some q ->
                exists s, field_text "equipment_type" r = Some s
                  /\ PyStr.lower s = PyStr.strip (PyStr.lower q)))
    /\ rs = Py.list_slice_to max_results
              (filter (matches origin destination equipment_type) (catalog src))
    /\ (supplied origin = None -> supplied destination = None ->
        supplied equipment_type = None ->
        rs = Py.list_slice_to max_results (catalog src)).
Proof.
  intros ->%search_loads_Return. eexists. split; [done|]. split; [|split; [done|]].
  - intros r [Hin Hm]%elem_of_slice_filter. split; [done|].
    unfold matches in Hm.
    apply andb_true_iff in Hm as [[Ho Hd]%andb_true_iff He].
    split; [|split]; intros q Hq.
    + by apply (contains_filter_supplied _ _ _ _ Hq).
    + by apply (contains_filter_supplied _ _ _ _ Hq).
    + by apply (equals_filter_supplied _ _ _ _ Hq).
  - intros Ho Hd He. f_equal. apply filter_all_true.
    intros r. by apply matches_omitted.
Qed.

(** C5. Over a catalog of well-formed records with [M] matching records,
    and for every cap [N] the query validation admits (a value from 1 to
    20, or 5 when the parameter is left out), an authorized load search
    returns exactly [min M N] records: the first [N] matching records,
    in the relative order they have in the catalog. *)
Theorem search_loads_returns_min_in_catalog_order
    cfg l origin destination equipment_type q N authorization :
  verify_api_key cfg authorization = Return tt ->
  Forall (fun r => well_formed r = true) l ->
  max_results_query q = Return N ->
  (1 <= N <= 20)%Z
  /\ (q = None -> N = 5%Z)
  /\ exists rs,
       result (search_loads cfg (SourcePresent (ReadParsed (PList l)))
                 origin destination equipment_type N authorization)
       = Return (PList rs)
       /\ length rs =
          min (length (filter (matches origin destination equipment_type) l))
              (Z.to_nat N)
       /\ rs = take (Z.to_nat N)
                 (filter (matches origin destination equipment_type) l)
       /\ rs `sublist_of` l.
Proof.
  intros Hok Hwf HN.
  assert (1 <= N <= 20)%Z as Hrange.
  { unfold max_results_query in HN. destruct q as [n|].
    - destruct (Z.leb_spec 1 n), (Z.leb_spec n 20); simpl in HN;
        try done. injection HN as <-. lia.
    - injection HN as <-. lia. }
  split; [done|]. split.
  { intros ->. by injection HN as <-. }
  exists (take (Z.to_nat N) (filter (matches origin destination equipment_type) l)).
  split; [|split; [|split; [done|]]].
  - rewrite (search_loads_authorized _ _ _ _ _ _ _ Hok). simpl loaded.
    rewrite (select_loads_total _ _ _ _ _ Hwf).
    by rewrite list_slice_to_take by lia.
  - rewrite length_take. lia.
  - etrans; [apply sublist_take|apply sublist_filter].
Qed.

(** C3. The equipment-type filter is exact: when an equipment-type query
    is supplied, every record the load search returns has an equipment
    type that, case-folded, is equal to the case-folded and trimmed
    query.  Containing the query is not enough: a record whose equipment
    type is "Dry Van Plus" is never among the results of the query
    "Dry Van", although "dry van" occurs in "dry van plus". *)
Theorem equipment_type_filter_is_exact
    cfg src origin destination q max_results authorization v :
  q <> "" ->
  result (search_loads cfg src origin destination (Some q) max_results
            authorization) = Return v ->
  exists rs,
    v = PList rs
    /\ (forall r, r ∈ rs ->
          exists s, field_text "equipment_type" r = Some s
                    /\ PyStr.lower s = PyStr.strip (PyStr.lower q))
    /\ (q = "Dry Van" ->
        PyStr.contains (PyStr.strip (PyStr.lower q))
          (PyStr.lower "Dry Van Plus") = true
        /\ forall r, field_text "equipment_type" r = Some "Dry Van Plus" ->
                     r ∉ rs).
Proof.
  intros Hq ->%search_loads_Return. eexists. split; [done|].
  assert (supplied (Some q) = Some q) as Hs.
  { unfold supplied. by destruct q. }
  assert (forall r,
    r ∈ Py.list_slice_to max_results
          (filter (matches origin destination (Some q)) (catalog src)) ->
    exists s, field_text "equipment_type" r = Some s
              /\ PyStr.lower s = PyStr.strip (PyStr.lower q)) as Hexact.
  { intros r [_ Hm]%elem_of_slice_filter.
    unfold matches in Hm. apply andb_true_iff in Hm as [_ He].
    by apply (equals_filter_supplied _ _ _ _ Hs). }
  split; [done|]. intros ->. split; [reflexivity|].
  intros r Hr [s [Hs' Heq]]%Hexact.
  rewrite Hr in Hs'. injection Hs' as <-. discriminate Heq.
Qed.

(** ** The fail-open policy of the loader *)



(** ** Empty and blank parameters *)

Lemma select_loads_finish (results : pyval) (line line' : string) (k : M pyval) :
  result (if negb (Py.truthy results) then print line ;; ret (PList []) else k)
  = result (if negb (Py.truthy results) then print line' ;; ret (PList []) else k).
Proof. by destruct (negb (Py.truthy results)). Qed.




(** The gate and the loader do not look at the filters. *)
Lemma search_loads_same_selection cfg src o d e o' d' e' n authorization :
  (forall v, result (select_loads o d e n v) = result (select_loads o' d' e' n v)) ->
  result (search_loads cfg src o d e n authorization)
  = result (search_loads cfg src o' d' e' n authorization).
Proof. intros H. unfold search_loads. by do 2 same_bind. Qed.




(** ** Carrier verification *)

Lemma verify_carrier_authorized cfg fmcsa mc authorization :
  verify_api_key cfg authorization = Return tt ->
  verify_carrier cfg fmcsa mc authorization =
  if negb (PyStr.isdigit (PyStr.strip mc)) then
    ret (not_eligible (PyStr.strip mc) "Invalid MC number format")
  else if negb (PyStr.truthy (FMCSA_API_KEY cfg)) then
    raise (HTTPException 500
             "FMCSA API key not configured. Set FMCSA_API_KEY environment variable.")
  else
    try_except (call_fmcsa cfg fmcsa (PyStr.strip mc)) verify_carrier_except.
Proof. unfold verify_carrier. intros ->. by rewrite bind_lift_Return. Qed.

Lemma result_try_except_Return {A} (m : M A) h a :
  result m = Return a -> result (try_except m h) = Return a.
Proof. destruct m as [t [a'|e]]; simpl; [done|discriminate]. Qed.

Lemma truthy_nonempty s : s <> "" -> PyStr.truthy s = true.
Proof. by destruct s. Qed.

(** The run of the [try] body up to the response. *)
Lemma call_fmcsa_response cfg fmcsa mc r :
  fmcsa (FMCSA_API_BASE ++ "/carriers/" ++ mc) [("webKey", FMCSA_API_KEY cfg)]
  = GetResponse r ->
  result (call_fmcsa cfg fmcsa mc) =
  if Z.eqb (status_code r) 404 then
    Return (not_eligible mc "Carrier not found in FMCSA database")
  else if Z.eqb (status_code r) 401 then
    Raise (HTTPException 500 "Invalid FMCSA API key")
  else if negb (Z.eqb (status_code r) 200) then
    Raise (HTTPException 500
             ("FMCSA API error: " ++ PyStr.of_Z (status_code r) ++ " - "
              ++ PyStr.slice_to 200 (text r)))
  else
    data <~ json r ;;
    content <~ Py.get data "content" (PDict ∅) ;;
    if negb (Py.truthy content) then
      Return (not_eligible mc "Carrier not found in FMCSA database")
    else
      carrier <~ Py.get content "carrier" (PDict ∅) ;;
      if negb (Py.truthy carrier) then
        Return (not_eligible mc "Carrier information not available")
      else carrier_verdict mc carrier.
Proof.
  intros Hget. unfold call_fmcsa, client_get. rewrite !result_bind. simpl.
  rewrite Hget. simpl.
  destruct (Z.eqb (status_code r) 404); [done|].
  destruct (Z.eqb (status_code r) 401); [done|].
  destruct (Z.eqb (status_code r) 200); simpl; [|done].
  destruct (json r) as [data|e]; simpl; [|done].
  destruct (Py.get data "content" (PDict ∅)) as [content|e]; simpl; [|done].
  destruct (Py.truthy content); simpl; [|done].
  destruct (Py.get content "carrier" (PDict ∅)) as [carrier|e]; simpl; [|done].
  destruct (Py.truthy carrier); simpl; [|done].
  by destruct (carrier_verdict mc carrier).
Qed.

(** C4, as amended. For every authorized request whose carrier
    identifier, once leading and trailing whitespace is trimmed, contains
    a character that [str.isdigit] does not accept, the verification
    operation returns a verdict with [is_eligible] false and the message
    "Invalid MC number format".  The run has an empty trace: no request
    goes to the registry, and the registry credential is not looked at,
    so the verdict is the same whether or not it is configured. *)
Theorem verify_carrier_rejects_non_digit_identifier
    cfg fmcsa mc authorization :
  verify_api_key cfg authorization = Return tt ->
  some_char_not PyStr.isdigit_char (PyStr.strip mc) = true ->
  exists v,
    verify_carrier cfg fmcsa mc authorization = ([], Return v)
    /\ is_eligible v = false
    /\ message v = "Invalid MC number format".
Proof.
  intros Hok Hchar. rewrite (verify_carrier_authorized _ _ _ _ Hok).
  rewrite (isdigit_false_of_char _ Hchar). simpl. eauto.
Qed.

(** C6, as amended. When the registry answers the lookup with status
    404, the verification operation does not raise: it returns a verdict
    with [is_eligible] false and the message
    "Carrier not found in FMCSA database", which, case-folded, contains
    "carrier not found". *)
Theorem verify_carrier_not_found cfg fmcsa mc authorization r :
  verify_api_key cfg authorization = Return tt ->
  PyStr.isdigit (PyStr.strip mc) = true ->
  FMCSA_API_KEY cfg <> "" ->
  fmcsa (FMCSA_API_BASE ++ "/carriers/" ++ PyStr.strip mc)
        [("webKey", FMCSA_API_KEY cfg)] = GetResponse r ->
  status_code r = 404%Z ->
  exists v,
    result (verify_carrier cfg fmcsa mc authorization) = Return v
    /\ is_eligible v = false
    /\ message v = "Carrier not found in FMCSA database"
    /\ PyStr.contains "carrier not found" (PyStr.lower (message v)) = true.
Proof.
  intros Hok Hdigit Hkey Hget Hstatus.
  rewrite (verify_carrier_authorized _ _ _ _ Hok), Hdigit.
  rewrite (truthy_nonempty _ Hkey). simpl.
  eexists. split; [|split; [|split]].
  - apply result_try_except_Return.
    rewrite (call_fmcsa_response _ _ _ _ Hget), Hstatus. reflexivity.
  - done.
  - done.
  - reflexivity.
Qed.

Lemma search_loads_other_registry_key cfg cfg' src o d e n authorization :
  API_KEY cfg = API_KEY cfg' ->
  search_loads cfg src o d e n authorization
  = search_loads cfg' src o d e n authorization.
Proof. unfold search_loads, verify_api_key. by intros ->. Qed.

(** C7. When the registry credential is not configured (the variable is
    unset, so the configuration holds the empty string), an authorized
    verification of an all-digit identifier raises an HTTP 500 whose
    detail names the missing configuration: a server-side failure, not a
    4xx and not a verdict, raised before any request is sent.  The
    absence is not fatal elsewhere: start-up builds the configuration
    all the same, and the load search does not depend on the registry
    credential. *)
Theorem verify_carrier_without_registry_key
    cfg fmcsa mc authorization :
  verify_api_key cfg authorization = Return tt ->
  all_decimal mc = true ->
  FMCSA_API_KEY cfg = "" ->
  verify_carrier cfg fmcsa mc authorization =
    ([], Raise (HTTPException 500
                  "FMCSA API key not configured. Set FMCSA_API_KEY environment variable."))
  /\ (forall env, env "FMCSA_API_KEY" = None ->
        startup env = {| API_KEY := getenv env "HAPPYROBOT_API_KEY" "";
                         FMCSA_API_KEY := "" |})
  /\ (forall key src o d e n a,
        search_loads cfg src o d e n a
        = search_loads {| API_KEY := API_KEY cfg; FMCSA_API_KEY := key |}
            src o d e n a).
Proof.
  intros Hok Hmc Hkey. split; [|split].
  - rewrite (verify_carrier_authorized _ _ _ _ Hok).
    rewrite (all_decimal_strip _ Hmc), (all_decimal_isdigit _ Hmc), Hkey.
    reflexivity.
  - intros env Henv. unfold startup, getenv. by rewrite Henv.
  - intros. by apply search_loads_other_registry_key.
Qed.
(** ** Sample runs *)

Example lower_example : PyStr.lower "Dry Van" = "dry van".
Proof. reflexivity. Qed.

Example strip_example : PyStr.strip "  Chicago, IL " = "Chicago, IL".
Proof. reflexivity. Qed.

Example split1_example :
  PyStr.split1 " " "ApiKey a b" = ["ApiKey"; "a b"] /\
  PyStr.split1 " " "ApiKey" = ["ApiKey"].
Proof. split; reflexivity. Qed.

Example contains_example :
  PyStr.contains "chicago" "chicago, il" = true /\
  PyStr.contains "dallas" "chicago, il" = false.
Proof. split; reflexivity. Qed.

Example of_Z_example : PyStr.of_Z 404 = "404" /\ PyStr.of_nat 0 = "0".
Proof. split; reflexivity. Qed.

Example isdigit_example :
  PyStr.isdigit "123456" = true /\ PyStr.isdigit "12a" = false
  /\ PyStr.isdigit "" = false /\ PyStr.isdigit superscript_two = true.
Proof. repeat split; reflexivity. Qed.

(** The scenario of the specification: of a Chicago and a Dallas load,
    the query origin="chicago" returns the Chicago one. *)
Example search_chicago :
  result (search_loads sample_cfg
            (SourcePresent (ReadParsed (PList [load_chicago; load_dallas])))
            (Some "chicago") None None 5 sample_header)
  = Return (PList [load_chicago]).
Proof. vm_compute. reflexivity. Qed.

(** The eligibility line and the operating-status lines, read off a
    verdict. *)
Lemma carrier_verdict_fields mc c v :
  carrier_verdict mc (PDict c) = Return v ->
  is_eligible v =
    Py.eq_str (default (PStr "N") (c !! "allowedToOperate")) "Y"
    && Py.is_none (default PNone (c !! "oosDate"))
  /\ operating_status v =
     Some (if Py.truthy (default PNone (c !! "oosDate")) then "Out of Service"
           else if Py.eq_str (default (PStr "N") (c !! "allowedToOperate")) "Y"
                then "Active" else "Not Authorized").
Proof.
  unfold carrier_verdict. simpl.
  destruct (Py.truthy (default PNone (c !! "legalName"))); simpl;
    unfold CarrierVerificationResponse_new;
    destruct (optional_str _), (optional_str _); try done;
    by intros [= <-].
Qed.

(** Where the two tests of the out-of-service date agree (the date is
    null or missing, or it is a non-empty value), the verdict is as the
    specification words it. *)
Lemma carrier_verdict_agreement mc c v :
  carrier_verdict mc (PDict c) = Return v ->
  Py.truthy (default PNone (c !! "oosDate"))
  = negb (Py.is_none (default PNone (c !! "oosDate"))) ->
  (is_eligible v = true <->
     default (PStr "N") (c !! "allowedToOperate") = PStr "Y"
     /\ default PNone (c !! "oosDate") = PNone)
  /\ operating_status v =
     Some (if negb (Py.is_none (default PNone (c !! "oosDate")))
           then "Out of Service"
           else if Py.eq_str (default (PStr "N") (c !! "allowedToOperate")) "Y"
                then "Active" else "Not Authorized").
Proof.
  intros [-> ->]%carrier_verdict_fields Hagree. rewrite Hagree.
  split; [|done]. rewrite andb_true_iff.
  destruct (default (PStr "N") (c !! "allowedToOperate")) as [| | | |s| |];
    destruct (default PNone (c !! "oosDate")); simpl;
    try (split; [intros [? ?]|intros [? ?]]; done).
  all: destruct (String.eqb_spec s "Y") as [->|]; split;
    try (intros [? ?]; done); try (intros [[= ->] ?]; done).
Qed.

(** C1, at the failing input. The registry answers 200 with a carrier
    whose allowedToOperate is "Y" and whose oosDate is the empty string.
    The eligibility line tests [oos_date is None], the status lines test
    the truth value of [oos_date]: the verdict says not eligible and
    "Active" at once.  With the date counted as present the status
    should be "Out of Service"; with the date counted as absent the
    carrier should be eligible. *)
Theorem verify_carrier_empty_oos_date :
  result (verify_carrier sample_cfg
            (answers (carrier_response "{}" carrier_empty_oos))
            "123456" sample_header)
  = Return {| mc_number := "123456";
              is_eligible := false;
              company_name := Some "ABC Trucking LLC";
              safety_rating := None;
              operating_status := Some "Active";
              message := "Carrier is not eligible to operate" |}.
Proof. vm_compute. reflexivity. Qed.

(** The scenario of the specification: an out-of-service date
    "2023-01-01" gives not eligible and "Out of Service". *)
Example verify_carrier_out_of_service :
  result (verify_carrier sample_cfg
            (answers (carrier_response "{}" carrier_out_of_service))
            "123456" sample_header)
  = Return {| mc_number := "123456";
              is_eligible := false;
              company_name := Some "ABC Trucking LLC";
              safety_rating := None;
              operating_status := Some "Out of Service";
              message := "Carrier is not eligible to operate" |}.
Proof. vm_compute. reflexivity. Qed.

(** ** Counterexamples to the claims as first stated *)

(** C4 as first stated fails.  The identifier "12 " contains a space,
    which is not a decimal digit, yet the handler trims it to "12" and
    goes on: without the registry credential it raises the configuration
    error, and with it the request goes to the registry.  The identifier
    "²" is not a decimal digit either, yet [str.isdigit] accepts it and
    the request goes to the registry. *)
Lemma non_decimal_identifier_reaches_registry :
  some_char_not PyStr.isdecimal_char "12 " = true
  /\ verify_carrier sample_cfg_no_registry (answers not_found_response)
       "12 " sample_header
     = ([], Raise (HTTPException 500
                     "FMCSA API key not configured. Set FMCSA_API_KEY environment variable."))
  /\ HttpGet "https://mobile.fmcsa.dot.gov/qc/services/carriers/12"
       [("webKey", "web-key")]
     ∈ trace (verify_carrier sample_cfg (answers not_found_response)
                "12 " sample_header)
  /\ some_char_not PyStr.isdecimal_char superscript_two = true
  /\ HttpGet ("https://mobile.fmcsa.dot.gov/qc/services/carriers/"
              ++ superscript_two)
       [("webKey", "web-key")]
     ∈ trace (verify_carrier sample_cfg (answers not_found_response)
                superscript_two sample_header).
Proof.
  split; [reflexivity|]. split; [reflexivity|].
  split; [vm_compute; repeat constructor|].
  split; [reflexivity|]. vm_compute; repeat constructor.
Qed.

(** C6 as first stated fails on the text of the message: for the
    identifier "999999" and a 404 from the registry the verdict is
    returned and not eligible, with the message
    "Carrier not found in FMCSA database", not "carrier not found". *)
Lemma not_found_message_is_not_the_quoted_one :
  exists v,
    result (verify_carrier sample_cfg (answers not_found_response)
              "999999" sample_header) = Return v
    /\ is_eligible v = false
    /\ message v = "Carrier not found in FMCSA database"
    /\ message v <> "carrier not found".
Proof.
  eexists. split; [vm_compute; reflexivity|].
  split; [reflexivity|]. split; [reflexivity|]. discriminate.
Qed.

(** ** The theorems at concrete inputs *)

Lemma search_loads_results_satisfy_filters_witness :
  result (search_loads sample_cfg sample_source (Some "chicago") None
            (Some "DRY VAN ") 5 sample_header)
  = Return (PList [load_chicago])
  /\ forall r, r ∈ [load_chicago] ->
       r ∈ sample_catalog
       /\ exists s, field_text "equipment_type" r = Some s
                    /\ PyStr.lower s = "dry van".
Proof.
  assert (result (search_loads sample_cfg sample_source (Some "chicago") None
                    (Some "DRY VAN ") 5 sample_header)
          = Return (PList [load_chicago])) as H
    by (vm_compute; reflexivity).
  split; [exact H|].
  destruct (search_loads_results_satisfy_filters _ _ _ _ _ _ _ _ H)
    as (rs & Heq & Hall & _).
  injection Heq as <-. intros r Hr.
  destruct (Hall r Hr) as (Hin & _ & _ & He).
  split; [exact Hin|]. exact (He "DRY VAN " eq_refl).
Defined.

Lemma equipment_type_filter_is_exact_witness :
  "Dry Van" <> ""
  /\ result (search_loads sample_cfg sample_source None None
               (Some "Dry Van") 5 sample_header)
     = Return (PList [load_chicago])
  /\ load_plus ∉ [load_chicago].
Proof.
  assert ("Dry Van" <> "") as Hq by discriminate.
  assert (result (search_loads sample_cfg sample_source None None
                    (Some "Dry Van") 5 sample_header)
          = Return (PList [load_chicago])) as H
    by (vm_compute; reflexivity).
  split; [exact Hq|]. split; [exact H|].
  destruct (equipment_type_filter_is_exact _ _ _ _ _ _ _ _ Hq H)
    as (rs & Heq & _ & Hplus).
  injection Heq as <-.
  destruct (Hplus eq_refl) as [_ Hnot]. apply Hnot. reflexivity.
Defined.

Lemma search_loads_returns_min_in_catalog_order_witness :
  verify_api_key sample_cfg sample_header = Return tt
  /\ Forall (fun r => well_formed r = true) sample_catalog
  /\ max_results_query (Some 2%Z) = Return 2%Z
  /\ exists rs,
       result (search_loads sample_cfg sample_source None None None 2
                 sample_header) = Return (PList rs)
       /\ length rs = 2.
Proof.
  assert (verify_api_key sample_cfg sample_header = Return tt) as Hok
    by reflexivity.
  assert (Forall (fun r => well_formed r = true) sample_catalog) as Hwf
    by (repeat constructor).
  assert (max_results_query (Some 2%Z) = Return 2%Z) as HN by reflexivity.
  split; [exact Hok|]. split; [exact Hwf|]. split; [exact HN|].
  destruct (search_loads_returns_min_in_catalog_order
              sample_cfg sample_catalog None None None (Some 2%Z) 2%Z
              sample_header Hok Hwf HN)
    as (_ & _ & rs & Hres & Hlen & _).
  exists rs. split; [exact Hres|]. rewrite Hlen. reflexivity.
Defined.

Lemma verify_carrier_rejects_non_digit_identifier_witness :
  verify_api_key sample_cfg sample_header = Return tt
  /\ some_char_not PyStr.isdigit_char (PyStr.strip " 12a ") = true
  /\ exists v,
       verify_carrier sample_cfg (answers not_found_response) " 12a "
         sample_header = ([], Return v)
       /\ is_eligible v = false
       /\ message v = "Invalid MC number format".
Proof.
  split; [reflexivity|]. split; [reflexivity|].
  apply verify_carrier_rejects_non_digit_identifier; reflexivity.
Defined.

Lemma verify_carrier_not_found_witness :
  verify_api_key sample_cfg sample_header = Return tt
  /\ PyStr.isdigit (PyStr.strip "999999") = true
  /\ FMCSA_API_KEY sample_cfg <> ""
  /\ status_code not_found_response = 404%Z
  /\ exists v,
       result (verify_carrier sample_cfg (answers not_found_response)
                 "999999" sample_header) = Return v
       /\ is_eligible v = false
       /\ message v = "Carrier not found in FMCSA database"
       /\ PyStr.contains "carrier not found" (PyStr.lower (message v)) = true.
Proof.
  split; [reflexivity|]. split; [reflexivity|].
  split; [discriminate|]. split; [reflexivity|].
  apply (verify_carrier_not_found sample_cfg (answers not_found_response)
           "999999" sample_header not_found_response);
    [reflexivity|reflexivity|discriminate|reflexivity|reflexivity].
Defined.

Lemma verify_carrier_without_registry_key_witness :
  verify_api_key sample_cfg_no_registry sample_header = Return tt
  /\ all_decimal "123456" = true
  /\ FMCSA_API_KEY sample_cfg_no_registry = ""
  /\ verify_carrier sample_cfg_no_registry (answers not_found_response)
       "123456" sample_header
     = ([], Raise (HTTPException 500
                     "FMCSA API key not configured. Set FMCSA_API_KEY environment variable.")).
Proof.
  split; [reflexivity|]. split; [reflexivity|]. split; [reflexivity|].
  apply (verify_carrier_without_registry_key sample_cfg_no_registry
           (answers not_found_response) "123456" sample_header);
    reflexivity.
Defined.

Lemma protected_operations_reject_bad_credential_witness :
  bad_credential sample_cfg (Some "Bearer secret")
  /\ authorization_failure
       (verify_carrier sample_cfg (answers not_found_response) "123456"
          (Some "Bearer secret"))
  /\ authorization_failure
       (search_loads sample_cfg sample_source None None None 5
          (Some "Bearer secret")).
Proof.
  assert (bad_credential sample_cfg (Some "Bearer secret")) as Hbad.
  { right. left. exists "Bearer secret". split; [reflexivity|].
    intros tok. discriminate. }
  split; [exact Hbad|].
  exact (protected_operations_reject_bad_credential sample_cfg
           (answers not_found_response) sample_source "123456"
           None None None 5%Z (Some "Bearer secret") Hbad).
Defined.




(** * Further properties of the code *)

(** ** The authentication gate *)

(** X1. The gate accepts exactly one header value: the literal "ApiKey",
    one space, and the configured secret.  The header is cut at its
    first space only, so a secret that itself contains spaces is
    compared whole. *)
Theorem gate_accepts_exactly_the_secret_header cfg authorization :
  verify_api_key cfg authorization = Return tt <->
  authorization = Some ("ApiKey " ++ API_KEY cfg).
Proof. apply verify_api_key_Return. Qed.

Lemma cut_ApiKey_inv a y : PyStr.cut " " a = Some ("ApiKey", y) -> a = "ApiKey " ++ y.
Proof. intros H. by rewrite (cut_Some _ _ _ _ H). Qed.

(** X2. Each refusal of the gate has its own detail, always with status
    403: an absent or empty header is "Missing Authorization header"; a
    non-empty header that is not "ApiKey", a space and a token is
    "Invalid Authorization format. Expected: ApiKey <key>"; a header of
    that form whose token is not the secret is "Invalid API Key". *)
Theorem gate_refusal_details cfg :
  (forall authorization,
     authorization = None \/ authorization = Some "" ->
     verify_api_key cfg authorization
     = Raise (HTTPException 403 "Missing Authorization header"))
  /\ (forall a,
        a <> "" -> (forall tok, a <> "ApiKey " ++ tok) ->
        verify_api_key cfg (Some a)
        = Raise (HTTPException 403
                   "Invalid Authorization format. Expected: ApiKey <key>"))
  /\ (forall tok,
        tok <> API_KEY cfg ->
        verify_api_key cfg (Some ("ApiKey " ++ tok))
        = Raise (HTTPException 403 "Invalid API Key")).
Proof.
  split; [|split].
  - by intros authorization [->| ->].
  - intros a Ha Hform. unfold verify_api_key, PyStr.split1.
    rewrite (truthy_nonempty _ Ha). simpl.
    destruct (PyStr.cut " " a) as [[x y]|] eqn:Hcut; simpl; [|done].
    destruct (String.eqb_spec x "ApiKey") as [->|]; simpl; [|done].
    apply cut_ApiKey_inv in Hcut. by destruct (Hform y).
  - intros tok Htok. unfold verify_api_key, PyStr.split1.
    rewrite cut_ApiKey. simpl.
    by destruct (String.eqb_spec tok (API_KEY cfg)).
Qed.

Lemma gate_refusal_details_witness :
  verify_api_key sample_cfg None
  = Raise (HTTPException 403 "Missing Authorization header")
  /\ verify_api_key sample_cfg (Some "Bearer secret")
     = Raise (HTTPException 403
                "Invalid Authorization format. Expected: ApiKey <key>")
  /\ verify_api_key sample_cfg (Some "ApiKey  secret")
     = Raise (HTTPException 403 "Invalid API Key").
Proof.
  destruct (gate_refusal_details sample_cfg) as (Hmissing & Hformat & Hkey).
  split; [|split].
  - apply Hmissing. left. reflexivity.
  - apply Hformat; [discriminate|]. intros tok. discriminate.
  - apply (Hkey " secret"). discriminate.
Defined.

(** X3. When the service secret is not set in the environment, start-up
    configures the empty secret, and the gate then accepts the header
    "ApiKey " (the scheme and one space, with an empty token) and no
    other. *)
Theorem gate_with_unset_secret env authorization :
  env "HAPPYROBOT_API_KEY" = None ->
  (verify_api_key (startup env) authorization = Return tt <->
   authorization = Some "ApiKey ").
Proof.
  intros Henv. rewrite verify_api_key_Return.
  unfold good_header, startup, getenv. simpl. by rewrite Henv.
Qed.

Lemma gate_with_unset_secret_witness :
  verify_api_key (startup (fun _ => None)) (Some "ApiKey ") = Return tt.
Proof.
  apply (gate_with_unset_secret (fun _ => None) (Some "ApiKey ")); reflexivity.
Defined.

(** ** Carrier verification: failures *)

Lemma result_try_except {A} (m : M A) (h : exn -> M A) :
  result (try_except m h) =
  match result m with
  | Return a => Return a
  | Raise e => result (h e)
  end.
Proof. destruct m as [t [a|e]]; simpl; [done|]. by destruct (h e). Qed.

Lemma trace_try_except {A} (m : M A) (h : exn -> M A) :
  trace (try_except m h) =
  match result m with
  | Return a => trace m
  | Raise e => (trace m ++ trace (h e))%list
  end.
Proof. destruct m as [t [a|e]]; simpl; [done|]. by destruct (h e). Qed.

(** Every [except] clause ends in an [HTTPException], 504 or 500. *)
Lemma verify_carrier_except_raises e :
  exists code detail,
    result (verify_carrier_except e) = Raise (HTTPException code detail)
    /\ (code = 504%Z \/ code = 500%Z).
Proof.
  destruct e as [c d|[] msg]; simpl; eauto 6.
Qed.

Lemma call_fmcsa_raises cfg fmcsa mc e :
  fmcsa (carrier_url mc) [("webKey", FMCSA_API_KEY cfg)] = GetRaises e ->
  result (call_fmcsa cfg fmcsa mc) = Raise e.
Proof.
  intros Hget. unfold call_fmcsa, client_get. fold (carrier_url mc).
  rewrite !result_bind. simpl. by rewrite Hget.
Qed.

Lemma verify_carrier_reaches cfg fmcsa mc authorization :
  reaches_registry cfg mc authorization ->
  verify_carrier cfg fmcsa mc authorization
  = try_except (call_fmcsa cfg fmcsa (PyStr.strip mc)) verify_carrier_except.
Proof.
  intros (Hok & Hdigit & Hkey).
  rewrite (verify_carrier_authorized _ _ _ _ Hok), Hdigit.
  by rewrite (truthy_nonempty _ Hkey).
Qed.

(** X4. Whatever the request and whatever the registry does, carrier
    verification never lets a raw exception out: when it raises, it
    raises an [HTTPException] whose status is 403, 500 or 504. *)
Theorem verify_carrier_raises_only_http cfg fmcsa mc authorization e :
  result (verify_carrier cfg fmcsa mc authorization) = Raise e ->
  exists code detail,
    e = HTTPException code detail
    /\ (code = 403%Z \/ code = 500%Z \/ code = 504%Z).
Proof.
  destruct (verify_api_key_cases cfg authorization) as [Hok|[d Hd]].
  2:{ rewrite (verify_carrier_refused _ _ _ _ _ Hd). intros [= <-]. eauto. }
  rewrite (verify_carrier_authorized _ _ _ _ Hok).
  destruct (PyStr.isdigit _); simpl; [|done].
  destruct (PyStr.truthy _); simpl; [|intros [= <-]; eauto 6].
  rewrite result_try_except.
  destruct (result (call_fmcsa _ _ _)) as [v|e0]; [done|].
  destruct (verify_carrier_except_raises e0) as (code & detail & -> & Hcode).
  intros [= <-]. exists code, detail. split; [done|]. tauto.
Qed.

Lemma verify_carrier_raises_only_http_witness :
  result (verify_carrier sample_cfg (fails (PyExc OtherException "boom"))
            "123456" sample_header)
  = Raise (HTTPException 500 "Unexpected error: boom")
  /\ exists code detail,
       HTTPException 500 "Unexpected error: boom" = HTTPException code detail
       /\ (code = 403%Z \/ code = 500%Z \/ code = 504%Z).
Proof.
  assert (result (verify_carrier sample_cfg (fails (PyExc OtherException "boom"))
                    "123456" sample_header)
          = Raise (HTTPException 500 "Unexpected error: boom")) as H
    by reflexivity.
  split; [exact H|].
  exact (verify_carrier_raises_only_http _ _ _ _ _ H).
Defined.

(** X5. Of the failures of the request itself, a timeout becomes HTTP
    504 "FMCSA API request timed out", and any other request error with
    text [msg] becomes HTTP 500 "Error connecting to FMCSA API: msg". *)
Theorem verify_carrier_request_failures cfg fmcsa mc authorization e :
  reaches_registry cfg mc authorization ->
  fmcsa (carrier_url (PyStr.strip mc)) [("webKey", FMCSA_API_KEY cfg)]
  = GetRaises e ->
  (forall msg, e = PyExc TimeoutException msg ->
     result (verify_carrier cfg fmcsa mc authorization)
     = Raise (HTTPException 504 "FMCSA API request timed out"))
  /\ (forall msg, e = PyExc RequestError msg ->
        result (verify_carrier cfg fmcsa mc authorization)
        = Raise (HTTPException 500 ("Error connecting to FMCSA API: " ++ msg))).
Proof.
  intros Hreach Hget. rewrite (verify_carrier_reaches _ _ _ _ Hreach).
  rewrite result_try_except, (call_fmcsa_raises _ _ _ _ Hget).
  split; by intros msg ->.
Qed.

Lemma verify_carrier_request_failures_witness :
  reaches_registry sample_cfg "123456" sample_header
  /\ result (verify_carrier sample_cfg (fails (PyExc TimeoutException ""))
               "123456" sample_header)
     = Raise (HTTPException 504 "FMCSA API request timed out").
Proof.
  assert (reaches_registry sample_cfg "123456" sample_header) as Hreach.
  { split; [reflexivity|]. split; [reflexivity|discriminate]. }
  split; [exact Hreach|].
  destruct (verify_carrier_request_failures sample_cfg
              (fails (PyExc TimeoutException "")) "123456" sample_header
              (PyExc TimeoutException "") Hreach eq_refl) as [Htimeout _].
  exact (Htimeout "" eq_refl).
Defined.

(** X6. A registry answer with any status other than 200 and 404 (401
    included) ends the verification in HTTP 500: the status of the
    registry is not passed on.  The [HTTPException] raised for it inside
    the [try] is caught by the last [except] clause, which prints a
    traceback and raises the 500 anew. *)
Theorem verify_carrier_registry_error_status cfg fmcsa mc authorization r :
  reaches_registry cfg mc authorization ->
  fmcsa (carrier_url (PyStr.strip mc)) [("webKey", FMCSA_API_KEY cfg)]
  = GetResponse r ->
  status_code r <> 200%Z ->
  status_code r <> 404%Z ->
  (exists inner,
     result (call_fmcsa cfg fmcsa (PyStr.strip mc))
     = Raise (HTTPException 500 inner)
     /\ result (verify_carrier cfg fmcsa mc authorization)
        = Raise (HTTPException 500
                   ("Unexpected error: "
                    ++ Py.str_exn (HTTPException 500 inner))))
  /\ PrintTraceback ∈ trace (verify_carrier cfg fmcsa mc authorization).
Proof.
  intros Hreach Hget H200 H404.
  rewrite (verify_carrier_reaches _ _ _ _ Hreach).
  rewrite result_try_except, trace_try_except.
  pose proof (call_fmcsa_response _ _ _ _ Hget) as Hres.
  destruct (Z.eqb_spec (status_code r) 404) as [|_]; [done|].
  destruct (Z.eqb_spec (status_code r) 200) as [|_]; [done|].
  simpl negb in Hres. cbv iota in Hres.
  assert (exists inner, result (call_fmcsa cfg fmcsa (PyStr.strip mc))
                        = Raise (HTTPException 500 inner)) as [inner Hinner].
  { destruct (Z.eqb (status_code r) 401); eauto. }
  rewrite Hinner. split.
  - exists inner. split; reflexivity.
  - simpl. set_solver.
Qed.

Lemma verify_carrier_registry_error_status_witness :
  reaches_registry sample_cfg "123456" sample_header
  /\ PrintTraceback
     ∈ trace (verify_carrier sample_cfg
                (answers {| status_code := 401; text := "Unauthorized";
                            json := Raise (PyExc OtherException "") |})
                "123456" sample_header).
Proof.
  assert (reaches_registry sample_cfg "123456" sample_header) as Hreach.
  { split; [reflexivity|]. split; [reflexivity|discriminate]. }
  split; [exact Hreach|].
  apply (verify_carrier_registry_error_status sample_cfg _ "123456"
           sample_header
           {| status_code := 401; text := "Unauthorized";
              json := Raise (PyExc OtherException "") |} Hreach eq_refl);
    discriminate.
Defined.

(** X7. A 200 answer without carrier data is a verdict, not an error.
    If the body is an object whose "content" is missing or empty, the
    verdict is not eligible with "Carrier not found in FMCSA database";
    if "content" is an object whose "carrier" is missing or empty, it is
    not eligible with "Carrier information not available". *)
Theorem verify_carrier_without_carrier_data
    cfg fmcsa mc authorization r data :
  reaches_registry cfg mc authorization ->
  fmcsa (carrier_url (PyStr.strip mc)) [("webKey", FMCSA_API_KEY cfg)]
  = GetResponse r ->
  status_code r = 200%Z ->
  json r = Return (PDict data) ->
  (Py.truthy (default (PDict ∅) (data !! "content")) = false ->
   result (verify_carrier cfg fmcsa mc authorization)
   = Return (not_eligible (PyStr.strip mc)
               "Carrier not found in FMCSA database"))
  /\ (forall content,
        data !! "content" = Some (PDict content) ->
        size content <> 0 ->
        Py.truthy (default (PDict ∅) (content !! "carrier")) = false ->
        result (verify_carrier cfg fmcsa mc authorization)
        = Return (not_eligible (PyStr.strip mc)
                    "Carrier information not available")).
Proof.
  intros Hreach Hget Hstatus Hjson.
  rewrite (verify_carrier_reaches _ _ _ _ Hreach), result_try_except.
  rewrite (call_fmcsa_response _ _ _ _ Hget), Hstatus, Hjson. simpl.
  split.
  - by intros ->.
  - intros content -> Hsize Hcarrier. simpl.
    destruct (Nat.eqb_spec (size content) 0) as [|_]; [done|]. simpl.
    by rewrite Hcarrier.
Qed.

Lemma verify_carrier_without_carrier_data_witness :
  reaches_registry sample_cfg "123456" sample_header
  /\ result (verify_carrier sample_cfg
               (answers {| status_code := 200; text := "{}";
                           json := Return (PDict ∅) |})
               "123456" sample_header)
     = Return (not_eligible "123456" "Carrier not found in FMCSA database").
Proof.
  assert (reaches_registry sample_cfg "123456" sample_header) as Hreach.
  { split; [reflexivity|]. split; [reflexivity|discriminate]. }
  split; [exact Hreach|].
  destruct (verify_carrier_without_carrier_data sample_cfg
              (answers {| status_code := 200; text := "{}";
                          json := Return (PDict ∅) |})
              "123456" sample_header _ ∅ Hreach eq_refl eq_refl eq_refl)
    as [Hcontent _].
  apply Hcontent. reflexivity.
Defined.

(** X8. A 200 answer whose body is JSON but not an object (a list, a
    string, a number, null) is an error, not a verdict: [data.get]
    raises [AttributeError], and the verification ends in HTTP 500. *)
Theorem verify_carrier_body_not_an_object
    cfg fmcsa mc authorization r data :
  reaches_registry cfg mc authorization ->
  fmcsa (carrier_url (PyStr.strip mc)) [("webKey", FMCSA_API_KEY cfg)]
  = GetResponse r ->
  status_code r = 200%Z ->
  json r = Return data ->
  (forall d, data <> PDict d) ->
  result (verify_carrier cfg fmcsa mc authorization)
  = Raise (HTTPException 500
             ("Unexpected error: '" ++ Py.type_name data
              ++ "' object has no attribute 'get'")).
Proof.
  intros Hreach Hget Hstatus Hjson Hdata.
  rewrite (verify_carrier_reaches _ _ _ _ Hreach), result_try_except.
  rewrite (call_fmcsa_response _ _ _ _ Hget), Hstatus, Hjson. simpl.
  destruct data; try reflexivity. by destruct (Hdata d).
Qed.

Lemma verify_carrier_body_not_an_object_witness :
  reaches_registry sample_cfg "123456" sample_header
  /\ result (verify_carrier sample_cfg
               (answers {| status_code := 200; text := "[]";
                           json := Return (PList []) |})
               "123456" sample_header)
     = Raise (HTTPException 500
                "Unexpected error: 'list' object has no attribute 'get'").
Proof.
  assert (reaches_registry sample_cfg "123456" sample_header) as Hreach.
  { split; [reflexivity|]. split; [reflexivity|discriminate]. }
  split; [exact Hreach|].
  apply (verify_carrier_body_not_an_object sample_cfg _ "123456"
           sample_header
           {| status_code := 200; text := "[]"; json := Return (PList []) |}
           (PList []) Hreach eq_refl eq_refl eq_refl).
  intros d. discriminate.
Defined.

(** ** Carrier verification: verdicts *)

Lemma carrier_verdict_inv mc carrier v :
  carrier_verdict mc carrier = Return v ->
  exists c,
    carrier = PDict c
    /\ mc_number v = mc
    /\ is_eligible v =
       Py.eq_str (default (PStr "N") (c !! "allowedToOperate")) "Y"
       && Py.is_none (default PNone (c !! "oosDate"))
    /\ operating_status v =
       Some (if Py.truthy (default PNone (c !! "oosDate")) then "Out of Service"
             else if Py.eq_str (default (PStr "N") (c !! "allowedToOperate")) "Y"
                  then "Active" else "Not Authorized")
    /\ message v =
       "Carrier is " ++ (if is_eligible v then "eligible" else "not eligible")
       ++ " to operate"
    /\ optional_str
         (if Py.truthy (default PNone (c !! "legalName"))
          then default PNone (c !! "legalName")
          else default (PStr "Unknown") (c !! "dbaName"))
       = Some (company_name v)
    /\ optional_str (default PNone (c !! "safetyRating"))
       = Some (safety_rating v).
Proof.
  destruct carrier as [| | | | | |c]; try done.
  intros H. exists c. split; [done|]. revert H.
  unfold carrier_verdict. simpl.
  destruct (Py.truthy (default PNone (c !! "legalName"))); simpl;
    unfold CarrierVerificationResponse_new;
    destruct (optional_str _) as [n|], (optional_str _) as [s|]; try done;
    by intros [= <-].
Qed.

Lemma result_try_except_inv {A} (m : M A) h (a : A) :
  (forall e, exists e', result (h e) = Raise e') ->
  result (try_except m h) = Return a -> result m = Return a.
Proof.
  intros Hh. rewrite result_try_except.
  destruct (result m) as [a'|e]; [done|].
  by destruct (Hh e) as [e' ->].
Qed.

Lemma verify_carrier_except_never_returns e :
  exists e', result (verify_carrier_except e) = Raise e'.
Proof.
  destruct (verify_carrier_except_raises e) as (code & detail & -> & _). eauto.
Qed.

(** The four kinds of verdict [verify_carrier] returns. *)
Lemma verify_carrier_verdict_cases cfg fmcsa mc authorization v :
  result (verify_carrier cfg fmcsa mc authorization) = Return v ->
  v = not_eligible (PyStr.strip mc) "Invalid MC number format"
  \/ v = not_eligible (PyStr.strip mc) "Carrier not found in FMCSA database"
  \/ v = not_eligible (PyStr.strip mc) "Carrier information not available"
  \/ exists carrier, carrier_verdict (PyStr.strip mc) carrier = Return v.
Proof.
  destruct (verify_api_key_cases cfg authorization) as [Hok|[d Hd]].
  2:{ by rewrite (verify_carrier_refused _ _ _ _ _ Hd). }
  rewrite (verify_carrier_authorized _ _ _ _ Hok).
  destruct (PyStr.isdigit _); simpl; [|intros [= <-]; auto].
  destruct (PyStr.truthy _); simpl; [|done].
  intros Hv%result_try_except_inv; [|apply verify_carrier_except_never_returns].
  revert Hv.
  destruct (fmcsa (carrier_url (PyStr.strip mc)) [("webKey", FMCSA_API_KEY cfg)])
    as [e|r] eqn:Hget.
  { by rewrite (call_fmcsa_raises _ _ _ _ Hget). }
  rewrite (call_fmcsa_response _ _ _ _ Hget).
  destruct (Z.eqb _ 404); [intros [= <-]; auto|].
  destruct (Z.eqb _ 401); [done|].
  destruct (Z.eqb _ 200); simpl; [|done].
  destruct (json r) as [data|]; simpl; [|done].
  destruct (Py.get data _ _) as [content|]; simpl; [|done].
  destruct (Py.truthy content); simpl; [|intros [= <-]; auto].
  destruct (Py.get content _ _) as [carrier|]; simpl; [|done].
  destruct (Py.truthy carrier); simpl; [|intros [= <-]; auto].
  eauto 6.
Qed.

(** X9. Every verdict carries the identifier as it was looked up: the
    submitted identifier with leading and trailing whitespace removed,
    not the identifier as submitted. *)
Theorem verdict_echoes_trimmed_identifier cfg fmcsa mc authorization v :
  result (verify_carrier cfg fmcsa mc authorization) = Return v ->
  mc_number v = PyStr.strip mc.
Proof.
  intros [->|[->|[->|[carrier Hc]]]]%verify_carrier_verdict_cases; try done.
  by apply carrier_verdict_inv in Hc as (c & _ & -> & _).
Qed.

Lemma verdict_echoes_trimmed_identifier_witness :
  result (verify_carrier sample_cfg (answers not_found_response) " 999999 "
            sample_header)
  = Return (not_eligible "999999" "Carrier not found in FMCSA database")
  /\ mc_number (not_eligible "999999" "Carrier not found in FMCSA database")
     = PyStr.strip " 999999 ".
Proof.
  assert (result (verify_carrier sample_cfg (answers not_found_response)
                    " 999999 " sample_header)
          = Return (not_eligible "999999" "Carrier not found in FMCSA database"))
    as H by reflexivity.
  split; [exact H|].
  exact (verdict_echoes_trimmed_identifier _ _ _ _ _ H).
Defined.

(** X10. A verdict is never eligible without being active: whenever a
    returned verdict has [is_eligible] true, its operating status is
    "Active" and its message is "Carrier is eligible to operate"; and a
    verdict whose operating status is "Out of Service" or
    "Not Authorized", or that has none, is not eligible. *)
Theorem eligible_verdict_is_active cfg fmcsa mc authorization v :
  result (verify_carrier cfg fmcsa mc authorization) = Return v ->
  (is_eligible v = true ->
     operating_status v = Some "Active"
     /\ message v = "Carrier is eligible to operate")
  /\ (operating_status v <> Some "Active" -> is_eligible v = false).
Proof.
  intros Hv.
  assert (is_eligible v = true ->
          operating_status v = Some "Active"
          /\ message v = "Carrier is eligible to operate") as Hactive.
  { apply verify_carrier_verdict_cases in Hv
      as [->|[->|[->|[carrier Hc]]]]; try done.
    apply carrier_verdict_inv in Hc as (c & _ & _ & He & -> & -> & _).
    intros Helig. rewrite Helig. split; [|done].
    rewrite Helig in He. symmetry in He.
    apply andb_true_iff in He as [-> Hnone].
    by destruct (default PNone (c !! "oosDate")). }
  split; [done|].
  intros Hstatus. destruct (is_eligible v); [|done].
  by destruct Hactive.
Qed.

Lemma eligible_verdict_is_active_witness :
  exists v,
    result (verify_carrier sample_cfg
              (answers (carrier_response "{}" carrier_dba_only))
              "123456" sample_header) = Return v
    /\ is_eligible v = true
    /\ operating_status v = Some "Active"
    /\ message v = "Carrier is eligible to operate".
Proof.
  eexists. split; [vm_compute; reflexivity|]. split; [reflexivity|].
  refine (proj1 (eligible_verdict_is_active sample_cfg
                   (answers (carrier_response "{}" carrier_dba_only))
                   "123456" sample_header _ _) _);
    [vm_compute; reflexivity|reflexivity].
Defined.

Lemma lookup_singleton_pyval (k : string) (x : pyval) :
  ({[k := x]} : gmap string pyval) !! k = Some x.
Proof. apply lookup_singleton_eq. Qed.

Lemma size_singleton_pyval (k : string) (x : pyval) :
  size ({[k := x]} : gmap string pyval) = 1.
Proof. apply map_size_singleton. Qed.

(** A 200 answer with a non-empty carrier substructure: the verdict is
    made from it, or the run ends in the [except] clause. *)
Lemma verify_carrier_carrier_data cfg fmcsa mc authorization body c v :
  reaches_registry cfg mc authorization ->
  fmcsa (carrier_url (PyStr.strip mc)) [("webKey", FMCSA_API_KEY cfg)]
  = GetResponse (carrier_response body c) ->
  size c <> 0 ->
  result (verify_carrier cfg fmcsa mc authorization) = Return v ->
  carrier_verdict (PyStr.strip mc) (PDict c) = Return v.
Proof.
  intros Hreach Hget Hsize.
  rewrite (verify_carrier_reaches _ _ _ _ Hreach).
  intros Hv%result_try_except_inv; [|apply verify_carrier_except_never_returns].
  revert Hv. rewrite (call_fmcsa_response _ _ _ _ Hget).
  unfold carrier_response. simpl status_code. simpl json.
  change (Z.eqb 200 404) with false. change (Z.eqb 200 401) with false.
  change (Z.eqb 200 200) with true. simpl negb. cbv iota.
  cbn [obind Py.get]. rewrite (lookup_singleton_pyval "content").
  cbn [default from_option id Py.truthy].
  rewrite (size_singleton_pyval "carrier").
  cbn [Nat.eqb negb obind Py.get].
  rewrite (lookup_singleton_pyval "carrier").
  cbn [default from_option id obind Py.truthy].
  destruct (Nat.eqb_spec (size c) 0) as [|_]; [done|]. done.
Qed.

(** X11. The company name of a verdict made from carrier data follows
    the chain of the source: a non-empty legal name is taken; otherwise
    the doing-business-as name is taken as it is; otherwise, with
    neither field, the name is "Unknown". *)
Theorem company_name_fallback cfg fmcsa mc authorization body c v :
  reaches_registry cfg mc authorization ->
  fmcsa (carrier_url (PyStr.strip mc)) [("webKey", FMCSA_API_KEY cfg)]
  = GetResponse (carrier_response body c) ->
  size c <> 0 ->
  result (verify_carrier cfg fmcsa mc authorization) = Return v ->
  (forall n, c !! "legalName" = Some (PStr n) -> n <> "" ->
     company_name v = Some n)
  /\ (Py.truthy (default PNone (c !! "legalName")) = false ->
      (forall d, c !! "dbaName" = Some (PStr d) -> company_name v = Some d)
      /\ (c !! "dbaName" = None -> company_name v = Some "Unknown")).
Proof.
  intros Hreach Hget Hsize Hv.
  apply (verify_carrier_carrier_data _ _ _ _ _ _ _ Hreach Hget Hsize) in Hv.
  apply carrier_verdict_inv in Hv as (c' & [= <-] & _ & _ & _ & _ & Hname & _).
  split.
  - intros n Hn Hne. rewrite Hn in Hname. simpl in Hname.
    rewrite (truthy_nonempty _ Hne) in Hname. by injection Hname as <-.
  - intros Hlegal. rewrite Hlegal in Hname. split.
    + intros d Hd. rewrite Hd in Hname. by injection Hname as <-.
    + intros Hd. rewrite Hd in Hname. by injection Hname as <-.
Qed.

Lemma company_name_fallback_witness :
  reaches_registry sample_cfg "123456" sample_header
  /\ size carrier_dba_only <> 0
  /\ exists v,
       result (verify_carrier sample_cfg
                 (answers (carrier_response "{}" carrier_dba_only))
                 "123456" sample_header) = Return v
       /\ company_name v = Some "Fast Freight".
Proof.
  assert (reaches_registry sample_cfg "123456" sample_header) as Hreach.
  { split; [reflexivity|]. split; [reflexivity|discriminate]. }
  assert (size carrier_dba_only <> 0) as Hsize by (vm_compute; discriminate).
  split; [exact Hreach|]. split; [exact Hsize|].
  eexists. split; [vm_compute; reflexivity|].
  refine (proj1 (proj2 (company_name_fallback sample_cfg
                          (answers (carrier_response "{}" carrier_dba_only))
                          "123456" sample_header "{}" carrier_dba_only _
                          Hreach eq_refl Hsize _) _) "Fast Freight" _);
    [vm_compute; reflexivity|reflexivity|reflexivity].
Defined.

(** X12. The safety rating of a verdict made from carrier data is the
    registry's, passed through unchanged: the string of the field when
    there is one, and no rating when the field is missing or null. *)
Theorem safety_rating_passed_through cfg fmcsa mc authorization body c v :
  reaches_registry cfg mc authorization ->
  fmcsa (carrier_url (PyStr.strip mc)) [("webKey", FMCSA_API_KEY cfg)]
  = GetResponse (carrier_response body c) ->
  size c <> 0 ->
  result (verify_carrier cfg fmcsa mc authorization) = Return v ->
  (forall s, c !! "safetyRating" = Some (PStr s) -> safety_rating v = Some s)
  /\ (c !! "safetyRating" = None \/ c !! "safetyRating" = Some PNone ->
      safety_rating v = None).
Proof.
  intros Hreach Hget Hsize Hv.
  apply (verify_carrier_carrier_data _ _ _ _ _ _ _ Hreach Hget Hsize) in Hv.
  apply carrier_verdict_inv in Hv as (c' & [= <-] & _ & _ & _ & _ & _ & Hs).
  split.
  - intros s Hc. rewrite Hc in Hs. by injection Hs as <-.
  - intros [Hc|Hc]; rewrite Hc in Hs; by injection Hs as <-.
Qed.

Lemma safety_rating_passed_through_witness :
  reaches_registry sample_cfg "123456" sample_header
  /\ size carrier_dba_only <> 0
  /\ exists v,
       result (verify_carrier sample_cfg
                 (answers (carrier_response "{}" carrier_dba_only))
                 "123456" sample_header) = Return v
       /\ safety_rating v = Some "Satisfactory".
Proof.
  assert (reaches_registry sample_cfg "123456" sample_header) as Hreach.
  { split; [reflexivity|]. split; [reflexivity|discriminate]. }
  assert (size carrier_dba_only <> 0) as Hsize by (vm_compute; discriminate).
  split; [exact Hreach|]. split; [exact Hsize|].
  eexists. split; [vm_compute; reflexivity|].
  refine (proj1 (safety_rating_passed_through sample_cfg
                   (answers (carrier_response "{}" carrier_dba_only))
                   "123456" sample_header "{}" carrier_dba_only _
                   Hreach eq_refl Hsize _) "Satisfactory" _);
    [vm_compute; reflexivity|reflexivity].
Defined.

(** ** Carrier verification: the request to the registry *)

Lemma http_gets_app t t' : http_gets (t ++ t')%list = (http_gets t ++ http_gets t')%list.
Proof. apply List.filter_app. Qed.

Lemma call_fmcsa_http_gets cfg fmcsa mc :
  http_gets (trace (call_fmcsa cfg fmcsa mc))
  = [HttpGet (carrier_url mc) [("webKey", FMCSA_API_KEY cfg)]].
Proof.
  unfold call_fmcsa, client_get. fold (carrier_url mc).
  destruct (fmcsa _ _) as [e|r]; simpl; [done|].
  repeat match goal with
         | |- context [if ?b then _ else _] => destruct b; simpl
         | |- context [match ?x with Return _ => _ | Raise _ => _ end] =>
             destruct x; simpl
         end; done.
Qed.

Lemma verify_carrier_except_http_gets e :
  http_gets (trace (verify_carrier_except e)) = [].
Proof. by destruct e as [c d|[] msg]. Qed.

(** X13. A verification sends at most one request to the registry, and
    exactly one when the request passes the gate, the trimmed identifier
    passes [isdigit] and the registry credential is set: a GET of
    [<base>/carriers/<trimmed identifier>] with the credential as the
    parameter [webKey].  Nothing is retried, whatever the answer; in
    every other case nothing is sent. *)
Theorem verify_carrier_sends_one_request cfg fmcsa mc authorization :
  (reaches_registry cfg mc authorization ->
   http_gets (trace (verify_carrier cfg fmcsa mc authorization))
   = [HttpGet (FMCSA_API_BASE ++ "/carriers/" ++ PyStr.strip mc)
        [("webKey", FMCSA_API_KEY cfg)]])
  /\ (~ reaches_registry cfg mc authorization ->
      http_gets (trace (verify_carrier cfg fmcsa mc authorization)) = []).
Proof.
  split.
  - intros Hreach. rewrite (verify_carrier_reaches _ _ _ _ Hreach).
    rewrite trace_try_except.
    destruct (result (call_fmcsa _ _ _)) as [v|e].
    + apply call_fmcsa_http_gets.
    + rewrite http_gets_app, call_fmcsa_http_gets,
        verify_carrier_except_http_gets. done.
  - intros Hnot.
    destruct (verify_api_key_cases cfg authorization) as [Hok|[d Hd]].
    2:{ by rewrite (verify_carrier_refused _ _ _ _ _ Hd). }
    rewrite (verify_carrier_authorized _ _ _ _ Hok).
    destruct (PyStr.isdigit _) eqn:Hdigit; simpl; [|done].
    destruct (FMCSA_API_KEY cfg) as [|k0 k] eqn:Hkey; simpl; [done|].
    destruct Hnot. split; [done|]. split; [done|]. by rewrite Hkey.
Qed.

Lemma verify_carrier_sends_one_request_witness :
  reaches_registry sample_cfg " 123456" sample_header
  /\ http_gets (trace (verify_carrier sample_cfg
                         (fails (PyExc TimeoutException "")) " 123456"
                         sample_header))
     = [HttpGet "https://mobile.fmcsa.dot.gov/qc/services/carriers/123456"
          [("webKey", "web-key")]].
Proof.
  assert (reaches_registry sample_cfg " 123456" sample_header) as Hreach.
  { split; [reflexivity|]. split; [reflexivity|discriminate]. }
  split; [exact Hreach|].
  exact (proj1 (verify_carrier_sends_one_request sample_cfg
                  (fails (PyExc TimeoutException "")) " 123456"
                  sample_header) Hreach).
Defined.

Section strip.
Import PyStr.

Lemma lstrip_head s :
  lstrip s = "" \/ exists c t, lstrip s = String c t /\ isspace_char c = false.
Proof.
  induction s as [|c s IH]; simpl; [by left|].
  destruct (isspace_char c) eqn:Hc; [done|]. right. eauto.
Qed.

Lemma rstrip_head c t :
  isspace_char c = false -> exists r, rstrip (String c t) = String c r.
Proof. simpl. intros ->. destruct (rstrip t); eauto. Qed.

Lemma rstrip_idempotent t : rstrip (rstrip t) = rstrip t.
Proof.
  induction t as [|c t IH]; simpl; [done|].
  destruct (rstrip t) as [|d r] eqn:Hr.
  - destruct (isspace_char c) eqn:Hc; simpl; [done|]. by rewrite Hc.
  - remember (String d r) as u. simpl. rewrite IH. by subst u.
Qed.

(** Trimming what is trimmed changes nothing. *)
Lemma strip_idempotent s : strip (strip s) = strip s.
Proof.
  unfold strip. destruct (lstrip_head s) as [->|(c & t & -> & Hc)]; [done|].
  destruct (rstrip_head c t Hc) as [r Hr]. rewrite Hr.
  replace (lstrip (String c r)) with (String c r) by (simpl; by rewrite Hc).
  by rewrite <- Hr, rstrip_idempotent.
Qed.

End strip.

(** X14. Whitespace around the identifier is ignored: a verification of
    an identifier and the verification of its trimmed form are the same
    run, with the same events and the same end. *)
Theorem verify_carrier_ignores_surrounding_whitespace
    cfg fmcsa mc authorization :
  verify_carrier cfg fmcsa mc authorization
  = verify_carrier cfg fmcsa (PyStr.strip mc) authorization.
Proof. unfold verify_carrier. by rewrite strip_idempotent. Qed.

(** ** The loader and the root endpoint *)

Lemma bind_lift_Return' {A B} (o : outcome A) (a : A) (k : A -> M B) :
  o = Return a -> result (bind (lift o) k) = result (k a).
Proof. intros ->. by rewrite bind_lift_Return. Qed.

Lemma len_loaded src : exists n, Py.len (loaded src) = Return n.
Proof.
  destruct src as [|[e|v]]; simpl; eauto.
  destruct v; simpl; eauto.
Qed.

(** X15. The root endpoint never fails, whatever the state of the loads
    file: it reports the number of records for a file that holds a
    list, and zero for a file that is absent, unreadable, or holds JSON
    without a length (null, a boolean, a number). *)
Theorem root_reports_catalog_size src :
  exists info,
    result (root src) = Return info
    /\ (forall l, src = SourcePresent (ReadParsed (PList l)) ->
          loads_available info = length l)
    /\ (src = SourceAbsent \/ (exists e, src = SourcePresent (ReadFails e)) ->
        loads_available info = 0)
    /\ (forall v, src = SourcePresent (ReadParsed v) ->
          (forall n, Py.len v <> Return n) -> loads_available info = 0).
Proof.
  unfold root. rewrite result_bind, loader_result.
  destruct (len_loaded src) as [n Hn]. rewrite (bind_lift_Return' _ n _ Hn).
  eexists. split; [reflexivity|]. simpl.
  split; [|split].
  - intros l ->. simpl in Hn. by injection Hn as <-.
  - intros [->|[e ->]]; simpl in Hn; by injection Hn as <-.
  - intros v -> Hlen. destruct v; simpl in Hn;
      try (by injection Hn as <-); by destruct (Hlen _ eq_refl).
Qed.

(** X16. The loader hands on what the file parses to whenever that
    value has a length, without checking that it is a list; for parsed
    JSON without a length the call of [len] inside the [try] raises, and
    the loader returns the empty list and prints the [TypeError]. *)
Theorem loader_on_parsed_json v :
  (forall n, Py.len v = Return n ->
     load_loads_from_file (SourcePresent (ReadParsed v))
     = ([PathExists "loads.json"; OpenRead "loads.json";
         Print ("Loaded " ++ PyStr.of_nat n ++ " loads from loads.json")],
        Return v))
  /\ ((forall n, Py.len v <> Return n) ->
      load_loads_from_file (SourcePresent (ReadParsed v))
      = ([PathExists "loads.json"; OpenRead "loads.json";
          Print ("Error loading loads.json: object of type '"
                 ++ Py.type_name v ++ "' has no len()")],
         Return (PList []))).
Proof.
  split.
  - intros n Hn. unfold load_loads_from_file, read_json. simpl.
    rewrite Hn. reflexivity.
  - intros Hlen. destruct v; try reflexivity; by destruct (Hlen _ eq_refl).
Qed.

Lemma loader_on_parsed_json_witness :
  load_loads_from_file (SourcePresent (ReadParsed (PInt 5)))
  = ([PathExists "loads.json"; OpenRead "loads.json";
      Print "Error loading loads.json: object of type 'int' has no len()"],
     Return (PList [])).
Proof.
  apply (proj2 (loader_on_parsed_json (PInt 5))). intros n. discriminate.
Defined.

(** ** The load search: errors *)

Lemma field_lower_raises_attribute key load e :
  field_lower key load = Raise e -> exists msg, e = PyExc AttributeError msg.
Proof.
  unfold field_lower. destruct load; simpl; try (intros [= <-]; eauto).
  destruct (default _ _); simpl; try (intros [= <-]; eauto); done.
Qed.

Lemma contains_cond_raises key q load e :
  contains_cond key q load = Raise e -> exists msg, e = PyExc AttributeError msg.
Proof.
  unfold contains_cond.
  destruct (field_lower key load) as [s|e'] eqn:Hf; simpl; [done|].
  intros [= <-]. by apply (field_lower_raises_attribute _ _ _ Hf).
Qed.

Lemma contains_cond_malformed key q load :
  field_text key load = None -> exists e, contains_cond key q load = Raise e.
Proof.
  intros [e He]%field_lower_None. unfold contains_cond. rewrite He. eauto.
Qed.

(** A comprehension over a list with a record its condition raises on
    raises, with the exception of the first such record. *)
Lemma list_comp_some_raises cond (l : list pyval) r :
  r ∈ l ->
  (exists e, cond r = Raise e) ->
  (forall x e, cond x = Raise e -> exists msg, e = PyExc AttributeError msg) ->
  exists msg, Py.list_comp cond l = Raise (PyExc AttributeError msg).
Proof.
  intros Hin Hr Hattr. induction l as [|x l IH]; [by apply elem_of_nil in Hin|].
  simpl. destruct (cond x) as [b|e] eqn:Hx; simpl.
  - apply elem_of_cons in Hin as [->|Hin].
    + destruct Hr as [e He]. congruence.
    + destruct (IH Hin) as [msg ->]. simpl. eauto.
  - destruct (Hattr _ _ Hx) as [msg ->]. eauto.
Qed.

(** X17. The search does not guard its records: when an origin filter
    is supplied and some record of the catalog has an origin that is not
    a string (or is not an object at all), an authorized search raises
    [AttributeError] instead of skipping the record, whatever the other
    records and parameters are. *)
Theorem search_loads_malformed_origin_raises
    cfg l origin destination equipment_type max_results authorization q r :
  verify_api_key cfg authorization = Return tt ->
  supplied origin = Some q ->
  r ∈ l ->
  field_text "origin" r = None ->
  exists msg,
    result (search_loads cfg (SourcePresent (ReadParsed (PList l)))
              origin destination equipment_type max_results authorization)
    = Raise (PyExc AttributeError msg).
Proof.
  intros Hok Hq Hin Hbad.
  rewrite (search_loads_authorized _ _ _ _ _ _ _ Hok). simpl loaded.
  unfold select_loads. destruct l as [|x0 l0]; [by apply elem_of_nil in Hin|].
  set (l := x0 :: l0) in *. simpl negb. cbv iota. simpl Py.copy.
  rewrite bind_lift_Return, result_bind, filter_step_supplied, Hq.
  simpl Py.iter. rewrite bind_lift_Return.
  destruct (list_comp_some_raises (contains_cond "origin" (trimmed_query q)) l r
              Hin (contains_cond_malformed _ _ _ Hbad)
              (contains_cond_raises _ _)) as [msg Hmsg].
  rewrite Hmsg. simpl. eauto.
Qed.

Lemma search_loads_malformed_origin_raises_witness :
  verify_api_key sample_cfg sample_header = Return tt
  /\ supplied (Some "chicago") = Some "chicago"
  /\ load_bad_origin ∈ [load_chicago; load_bad_origin]
  /\ field_text "origin" load_bad_origin = None
  /\ exists msg,
       result (search_loads sample_cfg
                 (SourcePresent (ReadParsed (PList [load_chicago; load_bad_origin])))
                 (Some "chicago") None None 5 sample_header)
       = Raise (PyExc AttributeError msg).
Proof.
  assert (load_bad_origin ∈ [load_chicago; load_bad_origin]) as Hin
    by (apply elem_of_cons; right; apply elem_of_cons; left; reflexivity).
  split; [reflexivity|]. split; [reflexivity|]. split; [exact Hin|].
  split; [reflexivity|].
  exact (search_loads_malformed_origin_raises sample_cfg
           [load_chicago; load_bad_origin] (Some "chicago") None None 5%Z
           sample_header "chicago" load_bad_origin
           eq_refl eq_refl Hin eq_refl).
Defined.

Lemma select_loads_dict_exception o d e n m :
  size m <> 0 ->
  exists cls msg, result (select_loads o d e n (PDict m)) = Raise (PyExc cls msg).
Proof.
  intros Hsize. unfold select_loads. simpl Py.truthy.
  destruct (Nat.eqb_spec (size m) 0) as [|_]; [done|].
  simpl negb. cbv iota. simpl Py.copy. rewrite bind_lift_Return.
  assert (forall name param key c,
            (c = contains_cond \/ c = equals_cond) ->
            (exists msg, result (filter_step name param (c key) (PDict m))
                         = Raise (PyExc AttributeError msg))
            \/ result (filter_step name param (c key) (PDict m))
               = Return (PDict m)) as Hstep.
  { intros name param key c Hc. rewrite filter_step_supplied.
    destruct (supplied param) as [p|]; [left|by right].
    simpl Py.iter. rewrite bind_lift_Return.
    destruct (map_to_list m) as [|[k x] rest] eqn:Hm.
    - apply map_to_list_empty_iff in Hm.
      by apply map_size_non_empty_iff in Hsize.
    - destruct Hc as [-> | ->]; simpl; eauto. }
  rewrite result_bind.
  destruct (Hstep "origin" o "origin" contains_cond (or_introl eq_refl))
    as [[msg ->]| ->]; [eauto|].
  rewrite result_bind.
  destruct (Hstep "destination" d "destination" contains_cond (or_introl eq_refl))
    as [[msg ->]| ->]; [eauto|].
  rewrite result_bind.
  destruct (Hstep "equipment_type" e "equipment_type" equals_cond
              (or_intror eq_refl))
    as [[msg ->]| ->]; [eauto|].
  simpl Py.truthy. destruct (Nat.eqb_spec (size m) 0) as [|_]; [done|].
  simpl. eauto.
Qed.

(** X18. The fail-open policy stops at parsing.  When the loads file
    parses to a non-empty JSON object, or to a non-empty JSON string,
    an authorized search does not return the empty list: it raises a
    Python exception that no handler catches ([AttributeError] for the
    string, which has no [copy]). *)
Theorem search_loads_wrong_shape_raises
    cfg origin destination equipment_type max_results authorization :
  verify_api_key cfg authorization = Return tt ->
  (forall m, size m <> 0 ->
     exists cls msg,
       result (search_loads cfg (SourcePresent (ReadParsed (PDict m)))
                 origin destination equipment_type max_results authorization)
       = Raise (PyExc cls msg))
  /\ (forall s, s <> "" ->
        result (search_loads cfg (SourcePresent (ReadParsed (PStr s)))
                  origin destination equipment_type max_results authorization)
        = Raise (PyExc AttributeError "'str' object has no attribute 'copy'")).
Proof.
  intros Hok. split.
  - intros m Hsize. rewrite (search_loads_authorized _ _ _ _ _ _ _ Hok).
    by apply select_loads_dict_exception.
  - intros s Hs. rewrite (search_loads_authorized _ _ _ _ _ _ _ Hok).
    simpl loaded. unfold select_loads. simpl Py.truthy.
    by rewrite (truthy_nonempty _ Hs).
Qed.

Lemma search_loads_wrong_shape_raises_witness :
  verify_api_key sample_cfg sample_header = Return tt
  /\ result (search_loads sample_cfg (SourcePresent (ReadParsed (PStr "[]")))
               None None None 5 sample_header)
     = Raise (PyExc AttributeError "'str' object has no attribute 'copy'").
Proof.
  split; [reflexivity|].
  apply (proj2 (search_loads_wrong_shape_raises sample_cfg None None None 5%Z
                  sample_header eq_refl)).
  discriminate.
Defined.

(** ** The load search: bounds and normalisation *)

(** X19. For every source, well-formed or not, a search that returns
    never returns more than [max_results] records (for a cap that is
    not negative), and never reorders records: the result is a sublist
    of the catalog. *)
Theorem search_loads_result_bounded
    cfg src origin destination equipment_type max_results authorization v :
  (0 <= max_results)%Z ->
  result (search_loads cfg src origin destination equipment_type max_results
            authorization) = Return v ->
  exists rs,
    v = PList rs
    /\ length rs <= Z.to_nat max_results
    /\ rs `sublist_of` catalog src.
Proof.
  intros Hn ->%search_loads_Return. eexists. split; [done|]. split.
  - rewrite list_slice_to_take by done. rewrite length_take. lia.
  - etrans; [apply list_slice_to_sublist|apply sublist_filter].
Qed.

Lemma search_loads_result_bounded_witness :
  (0 <= 1)%Z
  /\ result (search_loads sample_cfg sample_source (Some "chicago") None None 1
               sample_header) = Return (PList [load_chicago])
  /\ exists rs, PList [load_chicago] = PList rs
                /\ length rs <= Z.to_nat 1
                /\ rs `sublist_of` catalog sample_source.
Proof.
  assert (0 <= 1)%Z as Hn by lia.
  assert (result (search_loads sample_cfg sample_source (Some "chicago") None
                    None 1 sample_header) = Return (PList [load_chicago])) as H
    by (vm_compute; reflexivity).
  split; [exact Hn|]. split; [exact H|].
  exact (search_loads_result_bounded _ _ _ _ _ _ _ _ Hn H).
Defined.

Lemma result_bind_congr {A B} (m m' : M A) (k k' : A -> M B) :
  result m = result m' ->
  (forall a, result (k a) = result (k' a)) ->
  result (bind m k) = result (bind m' k').
Proof. intros Hm Hk. rewrite !result_bind, Hm. destruct (result m'); auto. Qed.

Lemma supplied_nonempty q : q <> "" -> supplied (Some q) = Some q.
Proof. unfold supplied. by destruct q. Qed.

(** A filter block depends on its parameter through the trimmed,
    case-folded query alone, as far as its result goes. *)
Lemma filter_step_same_query name cond q q' results :
  q <> "" -> q' <> "" -> trimmed_query q = trimmed_query q' ->
  result (filter_step name (Some q) cond results)
  = result (filter_step name (Some q') cond results).
Proof.
  intros Hq Hq' Heq. rewrite !filter_step_supplied.
  rewrite (supplied_nonempty _ Hq), (supplied_nonempty _ Hq'), Heq.
  do 2 same_bind. reflexivity.
Qed.

(** X20. The search is insensitive to the case of a query and to the
    whitespace around it: two non-empty values of a parameter that are
    equal once case-folded and trimmed give the same result, for each of
    the three parameters. *)
Theorem search_loads_query_normalised
    cfg src origin destination equipment_type max_results authorization q q' :
  q <> "" -> q' <> "" ->
  PyStr.strip (PyStr.lower q) = PyStr.strip (PyStr.lower q') ->
  result (search_loads cfg src (Some q) destination equipment_type
            max_results authorization)
  = result (search_loads cfg src (Some q') destination equipment_type
              max_results authorization)
  /\ result (search_loads cfg src origin (Some q) equipment_type
               max_results authorization)
     = result (search_loads cfg src origin (Some q') equipment_type
                 max_results authorization)
  /\ result (search_loads cfg src origin destination (Some q)
               max_results authorization)
     = result (search_loads cfg src origin destination (Some q')
                 max_results authorization).
Proof.
  intros Hq Hq' Heq.
  pose proof (fun name cond results =>
                filter_step_same_query name cond q q' results Hq Hq' Heq)
    as Hstep.
  split; [|split]; apply search_loads_same_selection; intros v;
    unfold select_loads; destruct (negb (Py.truthy v)); try done; same_bind.
  - apply result_bind_congr; [apply Hstep|intros ?].
    do 2 same_bind. apply select_loads_finish.
  - same_bind. apply result_bind_congr; [apply Hstep|intros ?].
    same_bind. apply select_loads_finish.
  - do 2 same_bind. apply result_bind_congr; [apply Hstep|intros ?].
    apply select_loads_finish.
Qed.

Lemma search_loads_query_normalised_witness :
  result (search_loads sample_cfg sample_source (Some "  CHICAGO ") None None
            5 sample_header)
  = result (search_loads sample_cfg sample_source (Some "chicago") None None
              5 sample_header).
Proof.
  refine (proj1 (search_loads_query_normalised sample_cfg sample_source
                   None None None 5%Z sample_header "  CHICAGO " "chicago"
                   _ _ _)); [discriminate|discriminate|reflexivity].
Defined.

Lemma lower_empty s : PyStr.lower s = "" -> s = "".
Proof. by destruct s. Qed.

(** X21. A blank equipment type is not skipped, unlike a blank origin or
    destination: with an equipment-type parameter made of whitespace
    alone, every record the search returns has an empty (or missing)
    equipment type, so every record with a real equipment type is
    excluded. *)
Theorem blank_equipment_type_keeps_only_empty
    cfg src origin destination max_results authorization w v :
  whitespace_only w = true ->
  result (search_loads cfg src origin destination (Some w) max_results
            authorization) = Return v ->
  exists rs,
    v = PList rs
    /\ forall r, r ∈ rs -> field_text "equipment_type" r = Some "".
Proof.
  intros [Ht Hw]%andb_true_iff ->%search_loads_Return.
  eexists. split; [done|].
  intros r [_ Hm]%elem_of_slice_filter.
  unfold matches in Hm. apply andb_true_iff in Hm as [_ He].
  assert (supplied (Some w) = Some w) as Hs by (unfold supplied; by rewrite Ht).
  destruct (equals_filter_supplied _ _ _ _ Hs He) as (s & Hf & Hl).
  unfold trimmed_query in Hl. rewrite (strip_lower_whitespace _ Hw) in Hl.
  apply lower_empty in Hl as ->. done.
Qed.

Lemma blank_equipment_type_keeps_only_empty_witness :
  whitespace_only " " = true
  /\ result (search_loads sample_cfg sample_source None None (Some " ") 5
               sample_header) = Return (PList []).
Proof.
  assert (whitespace_only " " = true) as Hw by reflexivity.
  assert (result (search_loads sample_cfg sample_source None None (Some " ") 5
                    sample_header) = Return (PList [])) as H
    by (vm_compute; reflexivity).
  split; [exact Hw|].
  destruct (blank_equipment_type_keeps_only_empty _ _ _ _ _ _ _ _ Hw H)
    as (rs & Heq & _).
  exact H.
Defined.


Lemma matches_split o d e r :
  matches o d e r
  = matches o None None r && matches None d None r && matches None None e r.
Proof.
  unfold matches, contains_filter, equals_filter. simpl.
  by rewrite !andb_true_r.
Qed.

Lemma take_all {A} (n : Z) (l : list A) :
  (Z.of_nat (length l) <= n)%Z -> Py.list_slice_to n l = l.
Proof.
  intros Hn. rewrite list_slice_to_take by lia. apply take_ge. lia.
Qed.

Lemma search_loads_small_catalog cfg l o d e n authorization :
  verify_api_key cfg authorization = Return tt ->
  Forall (fun r => well_formed r = true) l ->
  (Z.of_nat (length l) <= n)%Z ->
  result (search_loads cfg (SourcePresent (ReadParsed (PList l))) o d e n
            authorization)
  = Return (PList (filter (matches o d e) l)).
Proof.
  intros Hok Hwf Hn. rewrite (search_loads_authorized _ _ _ _ _ _ _ Hok).
  simpl loaded. rewrite (select_loads_total _ _ _ _ _ Hwf).
  rewrite take_all; [done|].
  pose proof (length_filter (matches o d e) l). lia.
Qed.

(** X22. The filters compose by intersection.  Over a catalog of
    well-formed records that fits under the cap, the records an
    authorized search returns for an origin, a destination and an
    equipment type together are exactly the records returned by all
    three searches that use one of the parameters alone. *)
Theorem search_loads_filters_intersect
    cfg l origin destination equipment_type max_results authorization :
  verify_api_key cfg authorization = Return tt ->
  Forall (fun r => well_formed r = true) l ->
  (Z.of_nat (length l) <= max_results)%Z ->
  exists rs rs_o rs_d rs_e,
    result (search_loads cfg (SourcePresent (ReadParsed (PList l)))
              origin destination equipment_type max_results authorization)
    = Return (PList rs)
    /\ result (search_loads cfg (SourcePresent (ReadParsed (PList l)))
                 origin None None max_results authorization)
       = Return (PList rs_o)
    /\ result (search_loads cfg (SourcePresent (ReadParsed (PList l)))
                 None destination None max_results authorization)
       = Return (PList rs_d)
    /\ result (search_loads cfg (SourcePresent (ReadParsed (PList l)))
                 None None equipment_type max_results authorization)
       = Return (PList rs_e)
    /\ forall r, r ∈ rs <-> r ∈ rs_o /\ r ∈ rs_d /\ r ∈ rs_e.
Proof.
  intros Hok Hwf Hn.
  do 4 eexists.
  split; [by apply search_loads_small_catalog|].
  split; [by apply search_loads_small_catalog|].
  split; [by apply search_loads_small_catalog|].
  split; [by apply search_loads_small_catalog|].
  intros r. rewrite !list_elem_of_filter, (matches_split origin destination
                                             equipment_type r).
  rewrite !andb_True. tauto.
Qed.

Lemma search_loads_filters_intersect_witness :
  verify_api_key sample_cfg sample_header = Return tt
  /\ Forall (fun r => well_formed r = true) sample_catalog
  /\ (Z.of_nat (length sample_catalog) <= 5)%Z
  /\ exists rs,
       result (search_loads sample_cfg sample_source (Some "chicago")
                 (Some "miami") (Some "dry van plus") 5 sample_header)
       = Return (PList rs).
Proof.
  assert (Forall (fun r => well_formed r = true) sample_catalog) as Hwf
    by (repeat constructor).
  assert (Z.of_nat (length sample_catalog) <= 5)%Z as Hn by (simpl; lia).
  split; [reflexivity|]. split; [exact Hwf|]. split; [exact Hn|].
  destruct (search_loads_filters_intersect sample_cfg sample_catalog
              (Some "chicago") (Some "miami") (Some "dry van plus") 5%Z
              sample_header eq_refl Hwf Hn)
    as (rs & _ & _ & _ & Hrs & _).
  exists rs. exact Hrs.
Defined.
